(** * phoenix-rtos-tests: the test runner and the login helpers

    A shallow embedding of [trunner/test_runner.py] (class [TestRunner]) and
    of [psh/tools/login.py] (function [log_in]), and the properties of the
    reboot strategy, of the counters, of test discovery and of the login
    dialogue that are proved about them.

    Python objects that the runner mutates are kept in an explicit state
    that every operation threads.  The descriptors are objects of a store,
    and the list [tests] holds references to them: an assignment to
    [tests[i + 1].should_reboot] changes the object that the item refers
    to, and with it every item of the list that refers to the same object;
    an iteration of the loop sees what the previous iteration wrote.
    Exceptions are the [Raise] outcome of a computation; the state reached
    when the exception was raised is kept, as in Python. *)

From stdpp Require Import base numbers list functions strings.

Local Open Scope string_scope.
Local Open Scope list_scope.

(** ** Exceptions and the state-and-exception monad *)

Inductive Exn :=
  | ValueError (msg : string)
  | IndexError
  | AssertionError (msg : string)
  | HarnessError (msg : string)
  | FlashError (msg : string)
  (** [sys.exit(code)] raises [SystemExit] *)
  | SystemExit (code : Z)
  | OtherError (msg : string).

Inductive Outcome (A : Type) :=
  | Ret (a : A)
  | Raise (e : Exn).
Arguments Ret {A} a.
Arguments Raise {A} e.

Definition M (St A : Type) : Type := St → Outcome A * St.

Definition ret {St A} (a : A) : M St A := λ st, (Ret a, st).
Definition raise {St A} (e : Exn) : M St A := λ st, (Raise e, st).
Definition bind {St A B} (m : M St A) (k : A → M St B) : M St B :=
  λ st, match m st with
        | (Ret a, st') => k a st'
        | (Raise e, st') => (Raise e, st')
        end.

Global Instance M_ret {St} : MRet (M St) := λ A, ret.
Global Instance M_bind {St} : MBind (M St) := λ A B k m, bind m k.

(** [assert cond, msg] *)
Definition py_assert {St} (cond : bool) (msg : string) : M St unit :=
  if cond then ret tt else raise (AssertionError msg).

(** ** Results and descriptors ([trunner.types]) *)

Inductive Status := OK | FAIL | SKIP.

Global Instance Status_eq_dec : EqDecision Status.
Proof. solve_decision. Defined.

Record TestResult := mkTestResult {
  res_name : string;
  status : Status;
  msg : string;
}.

(** Modelled from the spec: the class [TestResult] of [trunner/types.py],
    which is not among the sources.  A result carries a name, a status among
    OK, FAIL and SKIP and a message; a result that is created from a name
    alone is in the pending OK state with an empty message. *)
Definition new_TestResult (name : string) : TestResult :=
  {| res_name := name; status := OK; msg := "" |}.

Definition skip (r : TestResult) : TestResult :=
  {| res_name := res_name r; status := SKIP; msg := msg r |}.

Definition fail (m : string) (r : TestResult) : TestResult :=
  {| res_name := res_name r; status := FAIL; msg := m |}.

Definition is_fail (r : TestResult) : bool := bool_decide (status r = FAIL).
Definition is_skip (r : TestResult) : bool := bool_decide (status r = SKIP).
Definition get_name (r : TestResult) : string := res_name r.

(** Modelled from the spec: the bootloader options of a descriptor; [apps]
    is the list of the applications to load, and it is tested for truth,
    that is for being non-empty. *)
Record Bootloader := mkBootloader {
  apps : list string;
}.

(** Modelled from the spec: the class [TestOptions] of [trunner/types.py].
    [extra] stands for the fields the runner never looks at. *)
Record TestOptions := mkTestOptions {
  name : string;
  ignore : bool;
  should_reboot : bool;
  bootloader : option Bootloader;
  extra : list (string * string);
}.

Definition with_should_reboot (v : bool) (t : TestOptions) : TestOptions :=
  {| name := name t; ignore := ignore t; should_reboot := v;
     bootloader := bootloader t; extra := extra t |}.

(** [t.bootloader is not None and t.bootloader.apps], as a truth value *)
Definition requires_bootloader_apps (t : TestOptions) : bool :=
  match bootloader t with
  | Some b => match apps b with [] => false | _ :: _ => true end
  | None => false
  end.

(** ** What the runner does to the outside, in order *)

Inductive Event :=
  | EvPrint (text : string)
  | EvPrintName (name : string)
  | EvPrintResult (r : TestResult)
  | EvFlashDut
  | EvBuildTest (t : TestOptions)
  | EvHarnessCall (t : TestOptions)
  | EvSysPathInsert (p : string)
  | EvSummary (total : nat) (passes : Z) (fails skips : nat).

Definition is_exec_event (e : Event) : bool :=
  match e with
  | EvBuildTest _ | EvHarnessCall _ => true
  | _ => false
  end.

Definition results_of (tr : list Event) : list TestResult :=
  omap (λ e, match e with EvPrintResult r => Some r | _ => None end) tr.

Definition count_status (s : Status) (rs : list TestResult) : nat :=
  length (filter (λ r, status r = s) rs).

(** ** The file system, as [pathlib] shows it *)

Inductive Kind := Directory | RegularFile.

Global Instance Kind_eq_dec : EqDecision Kind.
Proof. solve_decision. Defined.

(** [stat] is what [is_dir] and [is_file] look at: a path names a
    directory, a regular file, or nothing that is either.  [rglob p pat] is
    [list(p.rglob(pat))]. *)
Class Pathlib (Path : Type) := {
  path_str : Path → string;
  suffix : Path → string;
  joinpath : Path → string → Path;
  stat : Path → option Kind;
  rglob : Path → string → list Path;
}.

Definition is_dir `{Pathlib Path} (p : Path) : bool :=
  bool_decide (stat p = Some Directory).
Definition is_file `{Pathlib Path} (p : Path) : bool :=
  bool_decide (stat p = Some RegularFile).

Section Runner.
Context {World Path : Type} `{!Pathlib Path}.

(** The device under test and everything else outside the runner is the
    [World]; a harness, the target and the parser act on it. *)
Definition Harness : Type := World → Outcome (option TestResult) * World.

Record Target := mkTarget {
  flash_dut : World → Outcome unit * World;
  build_test : TestOptions → World → Outcome (option Harness) * World;
}.

Record RunContext := mkRunContext {
  should_flash : bool;
  should_test : bool;
  nightly : bool;
  project_path : Path;
  target : Target;
  (** [ConfigParser(ctx).parse] *)
  parse : Path → World → Outcome (list TestOptions) * World;
}.

(** [objects] is the store: it gives the descriptor object behind a
    reference.  [items] is the Python list [tests], a list of references;
    a reference may occur in it more than once. *)
Record State := mkState {
  objects : nat → TestOptions;
  items : list nat;
  dut : World;
  trace : list Event;
}.

(** The list [tests] as Python shows it: the objects that its items refer
    to *)
Definition tests (st : State) : list TestOptions := objects st <$> items st.

Definition emit (e : Event) : M State unit :=
  λ st, (Ret tt, {| objects := objects st; items := items st;
                    dut := dut st; trace := trace st ++ [e] |}).

(** A call into the outside world *)
Definition extern {A} (f : World → Outcome A * World) : M State A :=
  λ st, let '(o, w) := f (dut st) in
        (o, {| objects := objects st; items := items st;
               dut := w; trace := trace st |}).

(** [len(tests)] *)
Definition len_tests : M State nat := λ st, (Ret (length (tests st)), st).

(** [tests[i]], the object behind the item as it is at the time of the
    call; the index is never negative here *)
Definition getitem (i : nat) : M State TestOptions :=
  λ st, match tests st !! i with
        | Some t => (Ret t, st)
        | None => (Raise IndexError, st)
        end.

(** [tests[i].should_reboot = v]: the assignment goes through the
    reference [tests[i]] and changes the object in the store *)
Definition setattr_should_reboot (i : nat) (v : bool) : M State unit :=
  λ st, match items st !! i with
        | Some l =>
            (Ret tt, {| objects := <[l := with_should_reboot v (objects st l)]>
                                     (objects st);
                        items := items st;
                        dut := dut st; trace := trace st |})
        | None => (Raise IndexError, st)
        end.

(** *** [set_reboot_flag], the closure of [run_tests] *)
Definition set_reboot_flag (ctx : RunContext) (idx : nat) (result : TestResult)
    : M State unit :=
  n ← len_tests;
  if decide (Z.of_nat idx = (Z.of_nat n - 1)%Z) then mret tt
  else
    setattr_should_reboot (idx + 1) false;;
    (if is_skip result then
       cur ← getitem idx;
       setattr_should_reboot (idx + 1) (should_reboot cur)
     else mret tt);;
    override ← (if is_fail result || nightly ctx then mret true
                else nxt ← getitem (idx + 1);
                     mret (requires_bootloader_apps nxt));
    (if override : bool then setattr_should_reboot (idx + 1) true
     else mret tt).

(** *** The body of the loop of [run_tests]

    [exec_test] is the part of an iteration up to the printing of the
    result: it skips the test, or builds and calls its harness. *)

(** [try: m except HarnessError as e: handler(str(e))] *)
Definition try_except_HarnessError {A} (m : M State A)
    (handler : string → M State A) : M State A :=
  λ st, match m st with
        | (Raise (HarnessError e), st') => handler e st'
        | r => r
        end.

Definition exec_test (ctx : RunContext) (test : TestOptions)
    : M State TestResult :=
  let result := new_TestResult (name test) in
  emit (EvPrintName (get_name result));;
  result ← (if ignore test then mret (skip result)
            else
              emit (EvBuildTest test);;
              harness ← extern (build_test (target ctx) test);
              match harness with
              | None => raise (AssertionError "")
              | Some h =>
                  emit (EvHarnessCall test);;
                  r ← try_except_HarnessError (extern h)
                        (λ e, mret (Some (fail e result)));
                  match r with
                  | None => mret (mkTestResult (name test) OK "")
                  | Some r => mret r
                  end
              end);
  emit (EvPrintResult result);;
  mret result.

(** [fail += 1] or [skip += 1] *)
Definition count (result : TestResult) (cnt : nat * nat) : nat * nat :=
  if is_fail result then (cnt.1 + 1, cnt.2)
  else if is_skip result then (cnt.1, cnt.2 + 1)
  else cnt.

(** One iteration, for the index [idx] that [enumerate] yields *)
Definition run_tests_body (ctx : RunContext) (idx : nat) (cnt : nat * nat)
    : M State (nat * nat) :=
  test ← getitem idx;
  result ← exec_test ctx test;
  set_reboot_flag ctx idx result;;
  mret (count result cnt).

Fixpoint run_tests_loop (ctx : RunContext) (remaining idx : nat)
    (cnt : nat * nat) : M State (nat * nat) :=
  match remaining with
  | 0 => mret cnt
  | S k =>
      cnt' ← run_tests_body ctx idx cnt;
      run_tests_loop ctx k (S idx) cnt'
  end.

(** [run_tests(tests)], [tests] being the list of the state; the result
    is the pair [fail, skip] *)
Definition run_tests (ctx : RunContext) : M State (nat * nat) :=
  n ← len_tests;
  run_tests_loop ctx n 0 (0, 0).

(** *** Discovery and parsing *)

Record TestRunner := mkTestRunner {
  ctx : RunContext;
  test_paths : list Path;
}.

(** What one entry of [test_paths] adds to [paths] *)
Definition yamls_of (path : Path) : Outcome (list Path) :=
  if is_dir path then
    let yamls := rglob path "test*.yaml" ++ rglob path "test*.yml" in
    match yamls with
    | [] => Raise (ValueError
              (path_str path +:+ " does not contain .yaml test configuration"))
    | _ :: _ => Ret yamls
    end
  else if is_file path then
    if bool_decide (suffix path ≠ ".yaml") && bool_decide (suffix path ≠ ".yml")
    then Raise (ValueError
           "Test configuration must be a file with .yaml or .yml extension")
    else Ret [path]
  else Raise (ValueError
         ("Test configuration " +:+ path_str path +:+
          " is neither a directory nor a file.")).

Fixpoint search_for_tests_loop (todo paths : list Path)
    : Outcome (list Path) :=
  match todo with
  | [] => Ret paths
  | path :: todo' =>
      match yamls_of path with
      | Ret yamls => search_for_tests_loop todo' (paths ++ yamls)
      | Raise e => Raise e
      end
  end.

Definition search_for_tests (self : TestRunner) : Outcome (list Path) :=
  search_for_tests_loop (test_paths self) [].

Definition pure_outcome {A} (o : Outcome A) : M State A := λ st, (o, st).

Fixpoint parse_tests_loop (c : RunContext) (test_yamls : list Path)
    (acc : list TestOptions) : M State (list TestOptions) :=
  match test_yamls with
  | [] => mret acc
  | path :: rest =>
      parsed ← extern (parse c path);
      parse_tests_loop c rest (acc ++ parsed)
  end.

Definition parse_tests (self : TestRunner) : M State (list TestOptions) :=
  test_yamls ← pure_outcome (search_for_tests self);
  parse_tests_loop (ctx self) test_yamls [].

(** *** Flashing and the campaign *)

Definition flash (self : TestRunner) : M State unit :=
  emit (EvPrint "Flashing an image to device...");;
  emit EvFlashDut;;
  (λ st, match extern (flash_dut (target (ctx self))) st with
         | (Raise (FlashError e), st') | (Raise (HarnessError e), st') =>
             (emit (EvPrint "ERROR WHILE FLASHING THE DEVICE");;
              emit (EvPrint e);;
              raise (SystemExit 1)) st'
         | r => r
         end);;
  emit (EvPrint "Done!").

Definition _add_tests_module_to_syspath (project_path : Path)
    : M State unit :=
  emit (EvSysPathInsert (path_str (joinpath project_path "phoenix-rtos-tests"))).

(** The store in which the descriptors [ts] are the objects behind the
    references [0], [1], ... *)
Definition store_of (ts : list TestOptions) (rest : nat → TestOptions)
    : nat → TestOptions :=
  λ l, default (rest l) (ts !! l).

(** [tests = ...] in [run].  Modelled from the spec: the descriptors are
    created by the parser, which is not among the sources; each parsed
    descriptor is taken to be an object of its own, and the list of the
    state refers to them in order. *)
Definition bind_tests (ts : list TestOptions) : M State unit :=
  λ st, (Ret tt, {| objects := store_of ts (objects st);
                    items := seq 0 (length ts);
                    dut := dut st; trace := trace st |}).

Definition run (self : TestRunner) : M State bool :=
  ts ← parse_tests self;
  bind_tests ts;;
  (if should_flash (ctx self) then flash self else mret tt);;
  if negb (should_test (ctx self)) then mret true
  else
    _add_tests_module_to_syspath (project_path (ctx self));;
    r ← run_tests (ctx self);
    n ← len_tests;
    let fails := r.1 in
    let skips := r.2 in
    let passes := (Z.of_nat n - Z.of_nat fails - Z.of_nat skips)%Z in
    emit (EvSummary n passes fails skips);;
    mret (bool_decide (fails = 0)).

(** *** Auxiliary definitions for the statements below *)

(** The state [st] with another world and another trace *)
Definition with_io (w : World) (tr : list Event) (st : State) : State :=
  {| objects := objects st; items := items st; dut := w; trace := tr |}.

(** [st'] is [st] but for the flag of the object behind [l], which is
    [v] *)
Definition flag_set (l : nat) (v : bool) (st st' : State) : Prop :=
  items st' = items st ∧ dut st' = dut st ∧ trace st' = trace st ∧
  ∀ l', objects st' l' =
        if decide (l' = l) then with_should_reboot v (objects st l)
        else objects st l'.

(** The flag that the three assignments of [set_reboot_flag] leave in
    [tests[idx + 1]], read off the code: the last assignment wins.
    [same] tells whether [tests[idx]] and [tests[idx + 1]] are one object:
    the flag that is copied after a SKIP is then the one that the first
    assignment has just cleared. *)
Definition flag_written (c : RunContext) (result : TestResult) (same : bool)
    (cur nxt : TestOptions) : bool :=
  if is_fail result || nightly c || requires_bootloader_apps nxt then true
  else if is_skip result then (if same then false else should_reboot cur)
  else false.

(** [tests[i]] and [tests[j]] are one object *)
Definition same_object (st : State) (i j : nat) : Prop :=
  items st !! i = items st !! j.

(** What an iteration that yields the result [r] adds to the trace, for
    the descriptor [t] whatever its flag is at that time: the name and the
    SKIP result when [t] is ignored, and otherwise the name, the call of
    [build_test], the call of the harness and the result. *)
Definition iteration_of (t : TestOptions) (r : TestResult)
    (seg : list Event) : Prop :=
  if ignore t
  then seg = [EvPrintName (name t); EvPrintResult r] ∧
       r = mkTestResult (name t) SKIP ""
  else ∃ v, seg = [EvPrintName (name t);
                   EvBuildTest (with_should_reboot v t);
                   EvHarnessCall (with_should_reboot v t);
                   EvPrintResult r].

(** The three ways in which an entry of [test_paths] makes
    [search_for_tests] raise, read off its branches, and what an entry
    adds to the result otherwise *)
Definition rejected_path (path : Path) : Prop :=
  (is_dir path = true ∧
   rglob path "test*.yaml" ++ rglob path "test*.yml" = []) ∨
  (is_file path = true ∧ suffix path ≠ ".yaml" ∧ suffix path ≠ ".yml") ∨
  (is_dir path = false ∧ is_file path = false).

Definition found_by (path : Path) : list Path :=
  if is_dir path then rglob path "test*.yaml" ++ rglob path "test*.yml"
  else [path].

(** The part of [run] before the test on [should_test] *)
Definition run_prologue (self : TestRunner) : M State unit :=
  ts ← parse_tests self;
  bind_tests ts;;
  (if should_flash (ctx self) then flash self else mret tt).

(** A target whose [build_test] always gives a harness, and whose
    harnesses return (a result or [None]) or raise [HarnessError] *)
Definition harnesses_total (tgt : Target) : Prop :=
  ∀ t w, ∃ h w1,
    build_test tgt t w = (Ret (Some h), w1) ∧
    ∀ w', ∃ w2, (∃ r, h w' = (Ret r, w2)) ∨
                (∃ m, h w' = (Raise (HarnessError m), w2)).
End Runner.

Arguments Harness World : clear implicits.
Arguments Target World : clear implicits.
Arguments RunContext World Path : clear implicits.
Arguments State World : clear implicits.
Arguments TestRunner World Path : clear implicits.

(** ** [psh/tools/login.py] *)

(** What [expect_exact] is given: literal strings and the [pexpect]
    sentinels *)
Inductive Pattern :=
  | Exact (text : string)
  | TIMEOUT
  | EOF.

(** The [pexpect] session [p].  [expect_exact] returns the index of the
    pattern that matched, the index of [TIMEOUT] in the list when nothing
    matched in time, or raises. *)
Class Spawn (Session : Type) := {
  spawn_send : string → Session → Session;
  spawn_expect_exact : list Pattern → Session → Outcome nat * Session;
}.

Definition newline : string := String (Ascii.ascii_of_nat 10) EmptyString.

Section Login.
Context {Session : Type} `{!Spawn Session}.

(** The session and, in order, every string handed to [p.send] *)
Record Dialogue := mkDialogue {
  session : Session;
  sent : list string;
}.

Definition send (text : string) : M Dialogue unit :=
  λ d, (Ret tt, {| session := spawn_send text (session d);
                   sent := sent d ++ [text] |}).

Definition expect_exact (patterns : list Pattern) : M Dialogue nat :=
  λ d, let '(o, s) := spawn_expect_exact patterns (session d) in
       (o, {| session := s; sent := sent d |}).

Definition log_in (login passwd : string) : M Dialogue unit :=
  send (login +:+ newline);;
  i ← expect_exact [Exact login; TIMEOUT];
  py_assert (bool_decide (i = 0)) "Cannot enter login to login prompt";;
  j ← expect_exact [Exact "Password:"; TIMEOUT];
  py_assert (bool_decide (j = 0)) "";;
  send (passwd +:+ newline).

Definition assert_login_empty (login : string) : M Dialogue unit :=
  send (login +:+ newline);;
  i ← expect_exact [Exact "Login:"; TIMEOUT];
  py_assert (bool_decide (i = 0)) "Empty login doesn`t repeat logging".
End Login.

Arguments Dialogue Session : clear implicits.

(** *** [assert_login] and [assert_login_fail] *)

Section LoginAsserts.
Context {Session : Type} `{!Spawn Session}.

(** [assert_prompt(p, msg, timeout)] and [assert_prompt_fail(p, msg,
    timeout)] come from [psh/tools/basic.py], which is not among the
    sources: they are parameters, any two computations on the dialogue. *)
Context (assert_prompt assert_prompt_fail :
           string → Z → M (Dialogue Session) unit).

Definition assert_login (login passwd : string) : M (Dialogue Session) unit :=
  log_in login passwd;;
  assert_prompt "Login should pass but failed" 1%Z.

Definition assert_login_fail (login passwd : string)
    : M (Dialogue Session) unit :=
  log_in login passwd;;
  assert_prompt_fail "Login should fail but passed" 1%Z.
End LoginAsserts.

(** ** Classes of events *)

Definition is_flash_event (e : Event) : bool :=
  match e with
  | EvFlashDut => true
  | _ => false
  end.

(** ** A small bench for concrete runs *)

Module Demo.
(** The world counts the harness calls and the flashes made so far. *)

#[export] Instance demo_pathlib : Pathlib string := {|
  path_str p := p;
  suffix p :=
    if decide (p = "cfg/test_c.yaml") then ".yaml"
    else if decide (p = "tests/test_a.yaml") then ".yaml"
    else if decide (p = "tests/sub/test_b.yml") then ".yml"
    else if decide (p = "notes.txt") then ".txt"
    else "";
  joinpath p q := p +:+ "/" +:+ q;
  stat p :=
    if decide (p = "tests") then Some Directory
    else if decide (p = "empty") then Some Directory
    else if decide (p = "cfg/test_c.yaml") then Some RegularFile
    else if decide (p = "notes.txt") then Some RegularFile
    else None;
  rglob p pat :=
    if decide (p = "tests") then
      if decide (pat = "test*.yaml") then ["tests/test_a.yaml"]
      else if decide (pat = "test*.yml") then ["tests/sub/test_b.yml"]
      else []
    else [];
|}.

Definition descriptor (n : string) (ign reboot : bool)
    (boot : option Bootloader) : TestOptions :=
  {| name := n; ignore := ign; should_reboot := reboot;
     bootloader := boot; extra := [] |}.

Definition t_ok : TestOptions := descriptor "ok" false true None.
Definition t_ignored : TestOptions := descriptor "ignored" true true None.
Definition t_error : TestOptions := descriptor "error" false false None.
Definition t_fails : TestOptions := descriptor "fails" false false None.
Definition t_quiet : TestOptions := descriptor "quiet" false false None.
Definition t_apps : TestOptions :=
  descriptor "apps" false false (Some {| apps := ["psh"] |}).

(** The harness of a descriptor, chosen by its name *)
Definition harness_of (t : TestOptions) : Harness nat :=
  λ w,
    if decide (name t = "error") then (Raise (HarnessError "timeout"), S w)
    else if decide (name t = "fails")
         then (Ret (Some (mkTestResult "fails" FAIL "mismatch")), S w)
    else if decide (name t = "quiet") then (Ret None, S w)
    else (Ret (Some (mkTestResult (name t) OK "")), S w).

Definition demo_target : Target nat :=
  {| flash_dut := λ w, (Ret tt, S w);
     build_test := λ t w, (Ret (Some (harness_of t)), w) |}.

Definition demo_parse (p : string) : nat → Outcome (list TestOptions) * nat :=
  λ w,
    if decide (p = "tests/test_a.yaml") then (Ret [t_ok; t_ignored], w)
    else if decide (p = "tests/sub/test_b.yml") then (Ret [t_quiet], w)
    else if decide (p = "cfg/test_c.yaml") then (Ret [t_fails; t_ok], w)
    else (Raise (OtherError "cannot parse"), w).

Definition demo_ctx (flash_it test_it night : bool) : RunContext nat string :=
  {| should_flash := flash_it; should_test := test_it; nightly := night;
     project_path := "/srv/phoenix-rtos-project";
     target := demo_target; parse := demo_parse |}.

(** A list of distinct descriptor objects, and a list whose items all
    refer to one object *)
Definition demo_state (ts : list TestOptions) : State nat :=
  {| objects := store_of ts (λ _, descriptor "" false true None);
     items := seq 0 (length ts); dut := 0; trace := [] |}.

Definition shared_state (t : TestOptions) (n : nat) : State nat :=
  {| objects := λ _, t; items := replicate n 0; dut := 0; trace := [] |}.

Definition demo_runner (flash_it test_it night : bool) (paths : list string)
    : TestRunner nat string :=
  {| ctx := demo_ctx flash_it test_it night; test_paths := paths |}.

(** Three campaigns: one that passes, one with a failing test, and one
    that only flashes *)
Definition campaign_passing : Outcome bool * State nat :=
  run (demo_runner true true false ["tests"]) (demo_state []).
Definition campaign_failing : Outcome bool * State nat :=
  run (demo_runner false true false ["tests"; "cfg/test_c.yaml"])
    (demo_state []).
Definition campaign_flash_only : Outcome bool * State nat :=
  run (demo_runner true false false ["tests"]) (demo_state []).

Definition r_ok : TestResult := mkTestResult "ok" OK "".
Definition r_skip : TestResult := mkTestResult "ignored" SKIP "".

(** A scripted session: the list holds the indices that the coming
    calls of [expect_exact] return; when it is empty the child has
    ended. *)
#[export] Instance demo_spawn : Spawn (list nat) := {|
  spawn_send _ s := s;
  spawn_expect_exact _ s :=
    match s with
    | [] => (Raise (OtherError "EOF"), [])
    | i :: s' => (Ret i, s')
    end;
|}.

Definition demo_dialogue (script : list nat) : Dialogue (list nat) :=
  {| session := script; sent := [] |}.

(** A target that cannot flash, and a context that asks it to *)
Definition unflashable_target : Target nat :=
  {| flash_dut := λ w, (Raise (FlashError "no device"), S w);
     build_test := build_test demo_target |}.

Definition unflashable_runner (paths : list string) : TestRunner nat string :=
  {| ctx := {| should_flash := true; should_test := true; nightly := false;
               project_path := "/srv/phoenix-rtos-project";
               target := unflashable_target; parse := demo_parse |};
     test_paths := paths |}.

(** A target that gives no harness for [unbuilt], fails to build
    [nobuild], and whose harness for [crash] raises an exception that is
    not a [HarnessError] *)
Definition t_unbuilt : TestOptions := descriptor "unbuilt" false false None.
Definition t_nobuild : TestOptions := descriptor "nobuild" false false None.
Definition t_crash : TestOptions := descriptor "crash" false false None.
Definition t_later : TestOptions := descriptor "later" true false None.

Definition crashing_harness : Harness nat :=
  λ w, (Raise (OtherError "boom"), S w).

Definition picky_target : Target nat :=
  {| flash_dut := λ w, (Ret tt, S w);
     build_test := λ t w,
       if decide (name t = "unbuilt") then (Ret None, w)
       else if decide (name t = "nobuild")
            then (Raise (HarnessError "no image"), w)
       else if decide (name t = "crash") then (Ret (Some crashing_harness), w)
       else (Ret (Some (harness_of t)), w) |}.

Definition picky_ctx : RunContext nat string :=
  {| should_flash := false; should_test := true; nightly := false;
     project_path := "/srv/phoenix-rtos-project";
     target := picky_target; parse := demo_parse |}.

(** A campaign whose parser rejects every file *)
Definition unparsable_runner (paths : list string) : TestRunner nat string :=
  {| ctx := {| should_flash := true; should_test := true; nightly := false;
               project_path := "/srv/phoenix-rtos-project";
               target := demo_target;
               parse := λ _ w, (Raise (OtherError "bad yaml"), S w) |};
     test_paths := paths |}.

(** What [demo_parse] returns for the files of the bench *)
Definition demo_descriptors (p : string) : list TestOptions :=
  if decide (p = "tests/test_a.yaml") then [t_ok; t_ignored]
  else if decide (p = "tests/sub/test_b.yml") then [t_quiet]
  else [t_fails; t_ok].

(** The prompt checks of a session whose script is over: the prompt is
    never seen *)
Definition prompt_missing (msg : string) (timeout : Z)
    : M (Dialogue (list nat)) unit :=
  raise (AssertionError msg).
Definition prompt_absent (msg : string) (timeout : Z)
    : M (Dialogue (list nat)) unit :=
  mret tt.
End Demo.

(** * Properties *)

(** ** The monad *)

Lemma bind_unfold {St A B} (m : M St A) (k : A → M St B) s :
  (m ≫= k) s =
  match m s with
  | (Ret a, s') => k a s'
  | (Raise e, s') => (Raise e, s')
  end.
Proof. reflexivity. Qed.

Lemma bind_inv {St A B} (m : M St A) (k : A → M St B) s o s' :
  (m ≫= k) s = (o, s') →
  (∃ e, m s = (Raise e, s') ∧ o = Raise e) ∨
  (∃ a s1, m s = (Ret a, s1) ∧ k a s1 = (o, s')).
Proof.
  rewrite bind_unfold. destruct (m s) as [[a|e] s1]; intros Hk.
  - right. eauto.
  - left. exists e. by simplify_eq.
Qed.

Lemma bind_Ret_inv {St A B} (m : M St A) (k : A → M St B) s b s' :
  (m ≫= k) s = (Ret b, s') →
  ∃ a s1, m s = (Ret a, s1) ∧ k a s1 = (Ret b, s').
Proof.
  intros Hb. apply bind_inv in Hb as [(e & _ & ?)|Hb]; [done|exact Hb].
Qed.

Lemma bind_Ret_step {St A B} (m : M St A) (k : A → M St B) s a s1 :
  m s = (Ret a, s1) → (m ≫= k) s = k a s1.
Proof. intros Hm. by rewrite bind_unfold, Hm. Qed.

Section RunnerFacts.
Context {World Path : Type} `{!Pathlib Path}.
Implicit Types (st : State World) (c : RunContext World Path).
Implicit Types (self : TestRunner World Path).
Implicit Types (t cur nxt test : TestOptions) (result r : TestResult).
Implicit Types (i j idx n l : nat).

(** ** The list and the store *)

Lemma requires_bootloader_apps_with_should_reboot v t :
  requires_bootloader_apps (with_should_reboot v t) = requires_bootloader_apps t.
Proof. reflexivity. Qed.

Lemma tests_lookup st i t :
  tests st !! i = Some t ↔ ∃ l, items st !! i = Some l ∧ objects st l = t.
Proof.
  unfold tests. rewrite list_lookup_fmap, fmap_Some.
  split; intros (l & Hl & Ht); by exists l.
Qed.

Lemma tests_lookup_item st i l :
  items st !! i = Some l → tests st !! i = Some (objects st l).
Proof. intros Hi. unfold tests. by rewrite list_lookup_fmap, Hi. Qed.

Lemma length_tests st : length (tests st) = length (items st).
Proof. apply length_fmap. Qed.

Lemma getitem_Some i t st : tests st !! i = Some t → getitem i st = (Ret t, st).
Proof. intros Hi. unfold getitem. by rewrite Hi. Qed.

Lemma getitem_inv i st (o : Outcome TestOptions) st' :
  getitem i st = (o, st') → st' = st.
Proof. unfold getitem. intros Hg. by case_match; simplify_eq. Qed.

(** ** Writes through a reference *)

Lemma setattr_flag_set i v l st :
  items st !! i = Some l →
  ∃ st', setattr_should_reboot i v st = (Ret tt, st') ∧ flag_set l v st st'.
Proof.
  intros Hi. unfold setattr_should_reboot. rewrite Hi.
  eexists. split; [done|]. split_and!; try done.
  intros l'. simpl. unfold insert, fn_insert.
  destruct (decide (l = l')), (decide (l' = l)); congruence.
Qed.

Lemma flag_set_trans l v0 v st st1 st2 :
  flag_set l v0 st st1 → flag_set l v st1 st2 → flag_set l v st st2.
Proof.
  intros (Hi1 & Hd1 & Ht1 & Ho1) (Hi2 & Hd2 & Ht2 & Ho2).
  split_and!; [congruence..|].
  intros l'. rewrite Ho2.
  destruct (decide (l' = l)) as [->|Hne]; rewrite Ho1;
    [rewrite decide_True by done|rewrite decide_False by done]; done.
Qed.

Lemma flag_set_lookup_eq l v st st' j :
  flag_set l v st st' → items st !! j = Some l →
  tests st' !! j = Some (with_should_reboot v (objects st l)).
Proof.
  intros (Hi & _ & _ & Ho) Hj. unfold tests.
  rewrite list_lookup_fmap, Hi, Hj. simpl.
  by rewrite Ho, decide_True.
Qed.

Lemma flag_set_lookup_ne l v st st' j :
  flag_set l v st st' → items st !! j ≠ Some l →
  tests st' !! j = tests st !! j.
Proof.
  intros (Hi & _ & _ & Ho) Hj. unfold tests. rewrite !list_lookup_fmap, Hi.
  destruct (items st !! j) as [l'|] eqn:Hl; [|done]. simpl.
  rewrite Ho, decide_False; [done|]. by intros ->.
Qed.

(** ** [set_reboot_flag] in closed form *)

Lemma set_reboot_flag_next c idx result st l0 l1 :
  items st !! idx = Some l0 →
  items st !! (idx + 1) = Some l1 →
  ∃ st',
    set_reboot_flag c idx result st = (Ret tt, st') ∧
    flag_set l1 (flag_written c result (bool_decide (l0 = l1))
                   (objects st l0) (objects st l1)) st st'.
Proof.
  intros Hcur Hnxt.
  assert (Hlt : idx + 1 < length (tests st)).
  { rewrite length_tests. by eapply lookup_lt_Some. }
  unfold set_reboot_flag, flag_written.
  rewrite bind_unfold. unfold len_tests.
  destruct (decide _) as [Heq|Hne]; [lia|].
  (* the default *)
  destruct (setattr_flag_set (idx + 1) false l1 st Hnxt) as (s1 & Hw1 & Hs1).
  rewrite (bind_Ret_step _ _ _ _ _ Hw1).
  (* the copy after a SKIP *)
  set (v2 := if is_skip result
             then (if bool_decide (l0 = l1) then false
                   else should_reboot (objects st l0))
             else false).
  assert (∃ s2,
    (if is_skip result
     then cur ← getitem idx; setattr_should_reboot (idx + 1) (should_reboot cur)
     else mret tt) s1 = (Ret tt, s2) ∧ flag_set l1 v2 st s2)
    as (s2 & Hw2 & Hs2).
  { subst v2. destruct (is_skip result).
    - pose proof Hs1 as (Hi1 & _ & _ & Ho1).
      assert (tests s1 !! idx = Some (objects s1 l0)) as Hget.
      { apply tests_lookup_item. by rewrite Hi1. }
      rewrite (bind_Ret_step _ _ _ _ _ (getitem_Some _ _ _ Hget)).
      destruct (setattr_flag_set (idx + 1) (should_reboot (objects s1 l0)) l1 s1)
        as (s2 & Hw2 & Hs2); [by rewrite Hi1|].
      exists s2. split; [done|].
      replace (if bool_decide (l0 = l1) then false
               else should_reboot (objects st l0))
        with (should_reboot (objects s1 l0)).
      + by eapply flag_set_trans.
      + rewrite Ho1. case_bool_decide; by case_decide.
    - exists s1. by split. }
  rewrite (bind_Ret_step _ _ _ _ _ Hw2).
  (* the overrides *)
  pose proof Hs2 as (Hi2 & _ & _ & Ho2).
  assert (tests s2 !! (idx + 1) = Some (with_should_reboot v2 (objects st l1)))
    as Hget2 by (by eapply flag_set_lookup_eq).
  assert (
    (if is_fail result || nightly c then mret true
     else nxt ← getitem (idx + 1); mret (requires_bootloader_apps nxt)) s2 =
    (Ret (is_fail result || nightly c || requires_bootloader_apps (objects st l1)),
     s2)) as Hov.
  { destruct (is_fail result || nightly c); [done|].
    by rewrite (bind_Ret_step _ _ _ _ _ (getitem_Some _ _ _ Hget2)). }
  rewrite (bind_Ret_step _ _ _ _ _ Hov).
  destruct (is_fail result || nightly c || requires_bootloader_apps (objects st l1)).
  - destruct (setattr_flag_set (idx + 1) true l1 s2) as (s3 & Hw3 & Hs3);
      [by rewrite Hi2|].
    exists s3. split; [done|]. by eapply flag_set_trans.
  - exists s2. by split.
Qed.

Lemma set_reboot_flag_last c idx result st :
  idx + 1 = length (tests st) →
  set_reboot_flag c idx result st = (Ret tt, st).
Proof.
  intros Hlast. unfold set_reboot_flag.
  rewrite bind_unfold. unfold len_tests.
  destruct (decide _) as [Heq|Hne]; [done|lia].
Qed.

Lemma set_reboot_flag_beyond c idx result st :
  length (tests st) < idx + 1 →
  set_reboot_flag c idx result st = (Raise IndexError, st).
Proof.
  intros Hlast. unfold set_reboot_flag.
  rewrite bind_unfold. unfold len_tests.
  destruct (decide _) as [Heq|Hne]; [lia|].
  rewrite bind_unfold. unfold setattr_should_reboot.
  rewrite length_tests in Hlast.
  by rewrite (lookup_ge_None_2 (items st) (idx + 1)) by lia.
Qed.

(** Whatever it returns, [set_reboot_flag] touches the flag of the object
    behind [tests[idx + 1]] and nothing else. *)
Lemma set_reboot_flag_inv c idx result st o st' :
  set_reboot_flag c idx result st = (o, st') →
  st' = st ∨
  ∃ l0 l1, items st !! idx = Some l0 ∧ items st !! (idx + 1) = Some l1 ∧
           o = Ret tt ∧
           flag_set l1 (flag_written c result (bool_decide (l0 = l1))
                          (objects st l0) (objects st l1)) st st'.
Proof.
  intros Hrun.
  destruct (decide (idx + 1 = length (tests st))) as [Heq|Hne].
  { rewrite set_reboot_flag_last in Hrun by done. left. by simplify_eq. }
  destruct (decide (length (tests st) < idx + 1)) as [Hgt|Hle].
  { rewrite set_reboot_flag_beyond in Hrun by done. left. by simplify_eq. }
  rewrite length_tests in Hne, Hle.
  destruct (lookup_lt_is_Some_2 (items st) idx) as [l0 Hcur]; [lia|].
  destruct (lookup_lt_is_Some_2 (items st) (idx + 1)) as [l1 Hnxt]; [lia|].
  destruct (set_reboot_flag_next c idx result st l0 l1 Hcur Hnxt)
    as (s & Hset & Hflag).
  right. exists l0, l1. rewrite Hset in Hrun. by simplify_eq.
Qed.

Lemma set_reboot_flag_trace c idx result st o st' :
  set_reboot_flag c idx result st = (o, st') →
  items st' = items st ∧ dut st' = dut st ∧ trace st' = trace st.
Proof.
  intros Hset.
  by apply set_reboot_flag_inv in Hset
    as [->|(? & ? & _ & _ & _ & (? & ? & ? & _))].
Qed.

Lemma set_reboot_flag_total c idx result st :
  idx < length (tests st) →
  ∃ st', set_reboot_flag c idx result st = (Ret tt, st') ∧
         dut st' = dut st ∧ trace st' = trace st ∧
         items st' = items st.
Proof.
  intros Hidx.
  destruct (decide (idx + 1 = length (tests st))) as [Hlast|Hmore].
  { exists st. by rewrite set_reboot_flag_last. }
  rewrite length_tests in Hidx, Hmore.
  destruct (lookup_lt_is_Some_2 (items st) idx) as [l0 Hcur]; [lia|].
  destruct (lookup_lt_is_Some_2 (items st) (idx + 1)) as [l1 Hnxt]; [lia|].
  destruct (set_reboot_flag_next c idx result st l0 l1 Hcur Hnxt)
    as (s & Hset & (Hi & Hd & Ht & _)).
  by exists s.
Qed.

(** ** [exec_test] in closed form *)

Lemma exec_test_ignored c t st :
  ignore t = true →
  exec_test c t st =
    (Ret (skip (new_TestResult (name t))),
     with_io (dut st)
       (trace st ++
        [EvPrintName (name t);
         EvPrintResult (skip (new_TestResult (name t)))]) st).
Proof.
  intros Hi. unfold exec_test, with_io. rewrite Hi.
  unfold mbind, M_bind, bind, emit, mret, M_ret, ret. simpl.
  by rewrite <- app_assoc.
Qed.

Lemma exec_test_harness_error c t st h w1 m w2 :
  ignore t = false →
  build_test (target c) t (dut st) = (Ret (Some h), w1) →
  h w1 = (Raise (HarnessError m), w2) →
  exec_test c t st =
    (Ret (fail m (new_TestResult (name t))),
     with_io w2
       (trace st ++
        [EvPrintName (name t); EvBuildTest t; EvHarnessCall t;
         EvPrintResult (fail m (new_TestResult (name t)))]) st).
Proof.
  intros Hi Hb Hh. unfold exec_test, with_io. rewrite Hi.
  unfold try_except_HarnessError, extern.
  unfold mbind, M_bind, bind, emit, mret, M_ret, ret. simpl.
  rewrite Hb. simpl. rewrite Hh. simpl.
  by rewrite <- !app_assoc.
Qed.

Lemma exec_test_returns c t st h w1 res w2 :
  ignore t = false →
  build_test (target c) t (dut st) = (Ret (Some h), w1) →
  h w1 = (Ret res, w2) →
  exec_test c t st =
    (Ret (default (mkTestResult (name t) OK "") res),
     with_io w2
       (trace st ++
        [EvPrintName (name t); EvBuildTest t; EvHarnessCall t;
         EvPrintResult (default (mkTestResult (name t) OK "") res)]) st).
Proof.
  intros Hi Hb Hh. unfold exec_test, with_io. rewrite Hi.
  unfold try_except_HarnessError, extern.
  unfold mbind, M_bind, bind, emit, mret, M_ret, ret. simpl.
  rewrite Hb. simpl. rewrite Hh. simpl.
  destruct res as [r|]; simpl; by rewrite <- !app_assoc.
Qed.

(** [exec_test] leaves the store and the list alone. *)
Lemma exec_test_store c t st o st' :
  exec_test c t st = (o, st') → st' = with_io (dut st') (trace st') st.
Proof.
  unfold exec_test, try_except_HarnessError, extern, raise.
  unfold mbind, M_bind, bind, emit, mret, M_ret, ret. simpl.
  intros Hrun.
  repeat (case_match; simplify_eq/=); done.
Qed.

Lemma exec_test_items c t st o st' :
  exec_test c t st = (o, st') → items st' = items st ∧ objects st' = objects st.
Proof. intros Hrun. by rewrite (exec_test_store _ _ _ _ _ Hrun). Qed.

Lemma exec_test_tests c t st o st' :
  exec_test c t st = (o, st') → tests st' = tests st.
Proof. intros Hrun. by rewrite (exec_test_store _ _ _ _ _ Hrun). Qed.

Lemma with_should_reboot_id t : with_should_reboot (should_reboot t) t = t.
Proof. by destruct t. Qed.

(** The events of an iteration that yields a result *)
Lemma exec_test_Ret_inv c t st r st' :
  exec_test c t st = (Ret r, st') →
  ∃ tr, trace st' = trace st ++ tr ∧ iteration_of t r tr.
Proof.
  unfold exec_test, try_except_HarnessError, extern, raise, iteration_of.
  unfold mbind, M_bind, bind, emit, mret, M_ret, ret. simpl.
  intros Hrun.
  destruct (ignore t);
    repeat (case_match; simplify_eq/=); simplify_eq/=;
    rewrite <- ?app_assoc; simpl;
    eexists; (split; [reflexivity|]); try done;
    exists (should_reboot t); by rewrite with_should_reboot_id.
Qed.

Lemma iteration_of_results t r seg :
  iteration_of t r seg →
  results_of seg = [r] ∧
  (ignore t = true → Forall (λ e, is_exec_event e = false) seg).
Proof.
  unfold iteration_of. destruct (ignore t).
  - intros [-> _]. split; [done|]. intros _. by repeat constructor.
  - intros [v ->]. by split.
Qed.

Lemma iteration_of_flag v t r seg :
  iteration_of (with_should_reboot v t) r seg → iteration_of t r seg.
Proof. unfold iteration_of. simpl. by destruct (ignore t). Qed.

(** ** One iteration of the loop *)

Lemma run_tests_body_unfold c idx cnt st test result st1 :
  tests st !! idx = Some test →
  exec_test c test st = (Ret result, st1) →
  run_tests_body c idx cnt st =
    match set_reboot_flag c idx result st1 with
    | (Ret _, st') => (Ret (count result cnt), st')
    | (Raise e, st') => (Raise e, st')
    end.
Proof.
  intros Hidx Hexec. unfold run_tests_body.
  rewrite (bind_Ret_step _ _ _ _ _ (getitem_Some _ _ _ Hidx)).
  rewrite (bind_Ret_step _ _ _ _ _ Hexec).
  rewrite bind_unfold. by destruct (set_reboot_flag c idx result st1) as [[[]|e] st'].
Qed.

Lemma run_tests_body_next c idx cnt st l0 l1 result st1 :
  items st !! idx = Some l0 →
  items st !! (idx + 1) = Some l1 →
  exec_test c (objects st l0) st = (Ret result, st1) →
  ∃ st',
    run_tests_body c idx cnt st = (Ret (count result cnt), st') ∧
    flag_set l1 (flag_written c result (bool_decide (l0 = l1))
                   (objects st l0) (objects st l1)) st1 st'.
Proof.
  intros Hidx Hnxt Hexec.
  rewrite (run_tests_body_unfold _ _ _ _ _ _ _ (tests_lookup_item _ _ _ Hidx) Hexec).
  pose proof (exec_test_items _ _ _ _ _ Hexec) as [Hitems Hobjs].
  destruct (set_reboot_flag_next c idx result st1 l0 l1) as (st' & Hset & Hflag);
    [by rewrite Hitems..|].
  exists st'. rewrite Hset. split; [done|]. by rewrite Hobjs in Hflag.
Qed.

(** The flag of [tests[idx + 1]] after the iteration; [same] tells whether
    [tests[idx]] and [tests[idx + 1]] are one object. *)
Lemma flag_after_iteration c idx cnt st test nxt result st1 :
  tests st !! idx = Some test →
  tests st !! (idx + 1) = Some nxt →
  exec_test c test st = (Ret result, st1) →
  ∃ st' same,
    run_tests_body c idx cnt st = (Ret (count result cnt), st') ∧
    tests st' !! (idx + 1) =
      Some (with_should_reboot (flag_written c result same test nxt) nxt) ∧
    (same = true ↔ same_object st idx (idx + 1)) ∧
    (same = false → tests st' !! idx = Some test).
Proof.
  intros (l0 & Hidx & <-)%tests_lookup (l1 & Hnxt & <-)%tests_lookup Hexec.
  pose proof (exec_test_items _ _ _ _ _ Hexec) as [Hitems Hobjs].
  destruct (run_tests_body_next c idx cnt st l0 l1 result st1)
    as (st' & Hrun & Hflag); [done..|].
  exists st', (bool_decide (l0 = l1)). split_and!.
  - done.
  - rewrite (flag_set_lookup_eq _ _ _ _ (idx + 1) Hflag) by (by rewrite Hitems).
    by rewrite Hobjs.
  - unfold same_object. rewrite Hidx, Hnxt, bool_decide_eq_true.
    split; [by intros ->|by intros [= ->]].
  - intros Hne%bool_decide_eq_false.
    rewrite (flag_set_lookup_ne _ _ _ _ _ Hflag).
    + rewrite (exec_test_tests _ _ _ _ _ Hexec). by apply tests_lookup_item.
    + rewrite Hitems, Hidx. by intros [= ->].
Qed.

(** C1. If the result of test [idx] is FAIL and [idx] is not the last
    index, then after the iteration of the loop that processes test [idx]
    the flag [should_reboot] of [tests[idx + 1]] is True, whatever the
    nightly flag of the context and the bootloader options of
    [tests[idx + 1]] are. *)
Theorem reboot_after_failure c idx cnt st test nxt result st1 :
  tests st !! idx = Some test →
  tests st !! (idx + 1) = Some nxt →
  exec_test c test st = (Ret result, st1) →
  status result = FAIL →
  ∃ st' nxt',
    run_tests_body c idx cnt st = (Ret (count result cnt), st') ∧
    tests st' !! (idx + 1) = Some nxt' ∧
    should_reboot nxt' = true.
Proof.
  intros Hidx Hnxt Hexec Hfail.
  destruct (flag_after_iteration c idx cnt st test nxt result st1)
    as (st' & same & Hrun & Hflag & _); [done..|].
  exists st', (with_should_reboot (flag_written c result same test nxt) nxt).
  split_and!; [done..|].
  unfold flag_written, is_fail. simpl.
  by rewrite bool_decide_eq_true_2.
Qed.

(** C2, amended. If the result of test [idx] is not FAIL, nightly mode is
    off, [tests[idx + 1]] has no non-empty bootloader apps, and the result
    is not SKIP or [tests[idx].should_reboot] is False, then after the
    iteration that processes test [idx] the flag of [tests[idx + 1]] is
    False. *)
Theorem no_reboot_after_quiet_test c idx cnt st test nxt result st1 :
  tests st !! idx = Some test →
  tests st !! (idx + 1) = Some nxt →
  exec_test c test st = (Ret result, st1) →
  status result ≠ FAIL →
  nightly c = false →
  requires_bootloader_apps nxt = false →
  (status result = SKIP → should_reboot test = false) →
  ∃ st' nxt',
    run_tests_body c idx cnt st = (Ret (count result cnt), st') ∧
    tests st' !! (idx + 1) = Some nxt' ∧
    should_reboot nxt' = false.
Proof.
  intros Hidx Hnxt Hexec Hfail Hnight Happs Hskip.
  destruct (flag_after_iteration c idx cnt st test nxt result st1)
    as (st' & same & Hrun & Hflag & _); [done..|].
  exists st', (with_should_reboot (flag_written c result same test nxt) nxt).
  split_and!; [done..|].
  unfold flag_written, is_fail, is_skip. simpl.
  rewrite bool_decide_eq_false_2, Hnight, Happs by done. simpl.
  case_bool_decide; [|done]. destruct same; [done|by apply Hskip].
Qed.

(** C3, amended. If the result of test [idx] is SKIP, nightly mode is off
    and [tests[idx + 1]] has no non-empty bootloader apps, then after the
    iteration that processes test [idx]: when [tests[idx]] and
    [tests[idx + 1]] are distinct objects, the flag of [tests[idx + 1]] is
    the flag that [tests[idx]] had in that iteration, and [tests[idx]] is
    as it was; when they are one object, the flag is False. *)
Theorem reboot_flag_propagates_over_skip c idx cnt st test nxt result st1 :
  tests st !! idx = Some test →
  tests st !! (idx + 1) = Some nxt →
  exec_test c test st = (Ret result, st1) →
  status result = SKIP →
  nightly c = false →
  requires_bootloader_apps nxt = false →
  ∃ st' nxt',
    run_tests_body c idx cnt st = (Ret (count result cnt), st') ∧
    tests st' !! (idx + 1) = Some nxt' ∧
    (¬ same_object st idx (idx + 1) →
     tests st' !! idx = Some test ∧
     should_reboot nxt' = should_reboot test) ∧
    (same_object st idx (idx + 1) → should_reboot nxt' = false).
Proof.
  intros Hidx Hnxt Hexec Hskip Hnight Happs.
  destruct (flag_after_iteration c idx cnt st test nxt result st1)
    as (st' & same & Hrun & Hflag & Hsame & Hkeep); [done..|].
  exists st', (with_should_reboot (flag_written c result same test nxt) nxt).
  assert (flag_written c result same test nxt =
          if same then false else should_reboot test) as Hw.
  { unfold flag_written, is_fail, is_skip. by rewrite Hskip, Hnight, Happs. }
  split_and!; [done..| |]; simpl; rewrite Hw.
  - intros Hdiff. destruct same; [by destruct Hdiff; apply Hsame|].
    split; [by apply Hkeep|done].
  - intros Hone. apply Hsame in Hone as ->. done.
Qed.

(** C4, amended. The flag that [set_reboot_flag] leaves in
    [tests[idx + 1]] is a function of the status of the result, of the
    bootloader options of [tests[idx + 1]], of the nightly flag of the
    context and, when the status is SKIP, of [tests[idx].should_reboot]
    and of whether [tests[idx]] and [tests[idx + 1]] are one object: two
    calls that agree on these write the same flag. *)
Theorem reboot_decision_inputs c1 c2 idx1 idx2 r1 r2 st1 st2
    cur1 nxt1 cur2 nxt2 :
  tests st1 !! idx1 = Some cur1 →
  tests st1 !! (idx1 + 1) = Some nxt1 →
  tests st2 !! idx2 = Some cur2 →
  tests st2 !! (idx2 + 1) = Some nxt2 →
  status r1 = status r2 →
  bootloader nxt1 = bootloader nxt2 →
  nightly c1 = nightly c2 →
  (status r1 = SKIP → should_reboot cur1 = should_reboot cur2) →
  (status r1 = SKIP →
   (same_object st1 idx1 (idx1 + 1) ↔ same_object st2 idx2 (idx2 + 1))) →
  ∃ v st1' st2',
    set_reboot_flag c1 idx1 r1 st1 = (Ret tt, st1') ∧
    set_reboot_flag c2 idx2 r2 st2 = (Ret tt, st2') ∧
    should_reboot <$> tests st1' !! (idx1 + 1) = Some v ∧
    should_reboot <$> tests st2' !! (idx2 + 1) = Some v.
Proof.
  intros (k1 & Hc1 & <-)%tests_lookup (l1 & Hn1 & <-)%tests_lookup.
  intros (k2 & Hc2 & <-)%tests_lookup (l2 & Hn2 & <-)%tests_lookup.
  intros Hst Hboot Hnight Hskip Hsame.
  destruct (set_reboot_flag_next c1 idx1 r1 st1 k1 l1 Hc1 Hn1)
    as (st1' & Hset1 & Hflag1).
  destruct (set_reboot_flag_next c2 idx2 r2 st2 k2 l2 Hc2 Hn2)
    as (st2' & Hset2 & Hflag2).
  exists (flag_written c1 r1 (bool_decide (k1 = l1))
            (objects st1 k1) (objects st1 l1)), st1', st2'.
  split_and!; [done..| |].
  - by rewrite (flag_set_lookup_eq _ _ _ _ _ Hflag1 Hn1).
  - rewrite (flag_set_lookup_eq _ _ _ _ _ Hflag2 Hn2). simpl. f_equal.
    unfold flag_written, is_fail, is_skip, requires_bootloader_apps.
    rewrite <- Hst, <- Hboot, <- Hnight.
    destruct (bool_decide (status r1 = FAIL) || nightly c1 || _); [done|].
    destruct (decide (status r1 = SKIP)) as [Hs|Hs];
      [rewrite !(bool_decide_eq_true_2 (status r1 = SKIP)) by done
      |by rewrite !(bool_decide_eq_false_2 (status r1 = SKIP)) by done].
    specialize (Hskip Hs). specialize (Hsame Hs).
    unfold same_object in Hsame. rewrite Hc1, Hn1, Hc2, Hn2 in Hsame.
    rewrite Hskip.
    destruct (decide (k1 = l1)) as [->|Hne1], (decide (k2 = l2)) as [->|Hne2].
    + by rewrite !bool_decide_eq_true_2.
    + destruct Hne2. destruct Hsame as [Hs1 _].
      specialize (Hs1 eq_refl). by simplify_eq.
    + destruct Hne1. destruct Hsame as [_ Hs2].
      specialize (Hs2 eq_refl). by simplify_eq.
    + by rewrite !bool_decide_eq_false_2.
Qed.
(** ** What an iteration and the whole loop leave alone *)

Lemma with_io_id st : with_io (dut st) (trace st) st = st.
Proof. by destruct st. Qed.

Lemma flag_set_with_io l v st st1 st' :
  items st1 = items st → objects st1 = objects st →
  flag_set l v st1 st' →
  flag_set l v (with_io (dut st') (trace st') st) st'.
Proof.
  intros Hitems Hobjs (Hi & Hd & Ht & Ho).
  split_and!; simpl; [congruence|done|done|].
  intros l'. by rewrite Ho, Hobjs.
Qed.

(** An iteration leaves the store as it is, or sets the flag of the object
    behind [tests[idx + 1]]. *)
Lemma run_tests_body_frame c idx cnt st o st' :
  run_tests_body c idx cnt st = (o, st') →
  st' = with_io (dut st') (trace st') st ∨
  ∃ v l1, items st !! (idx + 1) = Some l1 ∧
          flag_set l1 v (with_io (dut st') (trace st') st) st'.
Proof.
  unfold run_tests_body. intros Hrun.
  apply bind_inv in Hrun as [(e & Hget & _)|(test & s1 & Hget & Hrun)].
  { left. rewrite (getitem_inv _ _ _ _ Hget). by rewrite with_io_id. }
  apply getitem_inv in Hget as ->.
  apply bind_inv in Hrun as [(e & Hexec & _)|(result & s2 & Hexec & Hrun)].
  { left. by eapply exec_test_store. }
  pose proof (exec_test_store _ _ _ _ _ Hexec) as Hs2.
  pose proof (exec_test_items _ _ _ _ _ Hexec) as [Hitems Hobjs].
  assert (∃ o', set_reboot_flag c idx result s2 = (o', st')) as [o' Hset].
  { apply bind_inv in Hrun as [(e & Hset & _)|([] & s3 & Hset & Hrun)].
    - by eexists.
    - unfold mret, M_ret, ret in Hrun. simplify_eq. by eexists. }
  apply set_reboot_flag_inv in Hset as [->|(l0 & l1 & _ & Hnxt & _ & Hflag)].
  - by left.
  - right. eexists _, l1. split; [by rewrite <- Hitems|].
    by eapply flag_set_with_io.
Qed.

Lemma run_tests_body_keeps c idx cnt st o st' :
  run_tests_body c idx cnt st = (o, st') →
  items st' = items st ∧
  (∀ l, items st !! (idx + 1) ≠ Some l → objects st' l = objects st l) ∧
  (∀ l, ∃ v, objects st' l = with_should_reboot v (objects st l)).
Proof.
  intros [Hst|(v & l1 & Hnxt & (Hi & _ & _ & Ho))]%run_tests_body_frame.
  - rewrite Hst. simpl. split_and!; [done..|].
    intros l. exists (should_reboot (objects st l)).
    by rewrite with_should_reboot_id.
  - simpl in Hi, Ho. split_and!; [done| |].
    + intros l Hl. rewrite Ho, decide_False; [done|]. by intros ->.
    + intros l. rewrite Ho. destruct (decide (l = l1)) as [->|Hne].
      * by eexists.
      * exists (should_reboot (objects st l)). by rewrite with_should_reboot_id.
Qed.

Lemma tests_lookup_keeps st st' j t :
  items st' = items st →
  (∀ l, ∃ v, objects st' l = with_should_reboot v (objects st l)) →
  tests st !! j = Some t →
  ∃ v, tests st' !! j = Some (with_should_reboot v t).
Proof.
  intros Hi Ho (l & Hj & <-)%tests_lookup. destruct (Ho l) as [v Hv].
  exists v. rewrite <- Hv. apply tests_lookup_item. by rewrite Hi.
Qed.

Lemma tests_lookup_same st st' j :
  items st' = items st →
  (∀ l, items st !! j = Some l → objects st' l = objects st l) →
  tests st' !! j = tests st !! j.
Proof.
  intros Hi Ho. unfold tests. rewrite !list_lookup_fmap, Hi.
  destruct (items st !! j) as [l|]; [|done]. simpl. f_equal. by apply Ho.
Qed.

(** The loop that starts at [idx] writes only to the objects behind the
    items after [idx], and only to their flag. *)
Lemma run_tests_loop_frame c n idx cnt st o st' :
  run_tests_loop c n idx cnt st = (o, st') →
  items st' = items st ∧
  (∀ l, (∀ j, idx < j → items st !! j ≠ Some l) →
        objects st' l = objects st l) ∧
  (∀ l, ∃ v, objects st' l = with_should_reboot v (objects st l)).
Proof.
  revert idx cnt st. induction n as [|n IH]; intros idx cnt st Hrun; simpl in Hrun.
  { unfold mret, M_ret, ret in Hrun. simplify_eq. split_and!; [done..|].
    intros l. exists (should_reboot (objects st' l)).
    by rewrite with_should_reboot_id. }
  apply bind_inv in Hrun as [(e & Hbody & _)|(cnt' & s1 & Hbody & Hrun)].
  - apply run_tests_body_keeps in Hbody as (Hi & Ho & Hf).
    split_and!; [done| |done]. intros l Hl. apply Ho. apply Hl. lia.
  - apply run_tests_body_keeps in Hbody as (Hi1 & Ho1 & Hf1).
    apply IH in Hrun as (Hi2 & Ho2 & Hf2).
    split_and!.
    + congruence.
    + intros l Hl. rewrite Ho2, Ho1; [done| |].
      * apply Hl. lia.
      * intros j Hj. rewrite Hi1. apply Hl. lia.
    + intros l. destruct (Hf1 l) as [v1 Hv1], (Hf2 l) as [v2 Hv2].
      exists v2. by rewrite Hv2, Hv1.
Qed.

Lemma run_tests_loop_length c n idx cnt st o st' :
  run_tests_loop c n idx cnt st = (o, st') →
  length (tests st') = length (tests st).
Proof.
  intros (Hi & _)%run_tests_loop_frame. by rewrite !length_tests, Hi.
Qed.

(** C9, amended. [set_reboot_flag], and the whole iteration of the loop
    that processes test [idx], change nothing in the store but the flag
    [should_reboot] of the object behind [tests[idx + 1]]: the list holds
    the same references, every other object is as before, the other
    fields of every object are as before, and nothing at all changes when
    [idx] is the last index.  Hence an item of the list that is not the
    same object as [tests[idx + 1]] is as before; in a list of distinct
    objects [tests[i + 1]] is changed in no iteration other than [i]; and
    [run_tests] changes no object that only [tests[0]] refers to. *)
Theorem reboot_update_frame c :
  (∀ idx result st o st',
     set_reboot_flag c idx result st = (o, st') →
     items st' = items st ∧ dut st' = dut st ∧ trace st' = trace st ∧
     (∀ l, items st !! (idx + 1) ≠ Some l → objects st' l = objects st l) ∧
     (∀ l, ∃ v, objects st' l = with_should_reboot v (objects st l)) ∧
     (∀ j, ¬ same_object st j (idx + 1) → tests st' !! j = tests st !! j) ∧
     (idx + 1 = length (tests st) → st' = st)) ∧
  (∀ idx cnt st o st',
     run_tests_body c idx cnt st = (o, st') →
     items st' = items st ∧
     (∀ l, items st !! (idx + 1) ≠ Some l → objects st' l = objects st l) ∧
     (∀ l, ∃ v, objects st' l = with_should_reboot v (objects st l)) ∧
     (∀ j, ¬ same_object st j (idx + 1) → tests st' !! j = tests st !! j) ∧
     (∀ nxt, tests st !! (idx + 1) = Some nxt →
        ∃ nxt', tests st' !! (idx + 1) = Some nxt' ∧
                name nxt' = name nxt ∧ ignore nxt' = ignore nxt ∧
                bootloader nxt' = bootloader nxt ∧ extra nxt' = extra nxt) ∧
     (idx + 1 = length (tests st) → tests st' = tests st)) ∧
  (∀ i j cnt st o st',
     NoDup (items st) →
     j ≠ i →
     run_tests_body c j cnt st = (o, st') →
     tests st' !! (i + 1) = tests st !! (i + 1)) ∧
  (∀ st o st',
     run_tests c st = (o, st') →
     length (tests st') = length (tests st) ∧
     (∀ l, (∀ j, 0 < j → items st !! j ≠ Some l) →
           objects st' l = objects st l) ∧
     ((∀ j, 0 < j → ¬ same_object st j 0) →
      tests st' !! 0 = tests st !! 0)).
Proof.
  split_and!.
  - intros idx result st o st' Hset.
    apply set_reboot_flag_inv in Hset
      as [->|(l0 & l1 & _ & Hnxt & _ & Hflag)].
    { split_and!; try done. intros l. exists (should_reboot (objects st l)).
      by rewrite with_should_reboot_id. }
    pose proof Hflag as (Hi & Hd & Ht & Ho).
    split_and!; try done.
    + intros l Hl. rewrite Ho, decide_False; [done|]. intros ->.
      by rewrite Hnxt in Hl.
    + intros l. rewrite Ho. destruct (decide (l = l1)) as [->|Hne].
      * by eexists.
      * exists (should_reboot (objects st l)). by rewrite with_should_reboot_id.
    + intros j Hj. apply (flag_set_lookup_ne _ _ _ _ _ Hflag).
      unfold same_object in Hj. by rewrite Hnxt in Hj.
    + intros Hlast. apply lookup_lt_Some in Hnxt.
      rewrite length_tests in Hlast. lia.
  - intros idx cnt st o st' Hrun.
    pose proof (run_tests_body_keeps _ _ _ _ _ _ Hrun) as (Hi & Ho & Hf).
    split_and!; try done.
    + intros j Hj. apply tests_lookup_same; [done|].
      intros l Hl. apply Ho. unfold same_object in Hj. by rewrite Hl in Hj.
    + intros nxt Hnxt.
      destruct (tests_lookup_keeps _ _ _ _ Hi Hf Hnxt) as [v Hv].
      by exists (with_should_reboot v nxt).
    + intros Hlast.
      apply run_tests_body_frame in Hrun as [->|(v & l1 & Hnxt & _)]; [done|].
      apply lookup_lt_Some in Hnxt. rewrite length_tests in Hlast. lia.
  - intros i j cnt st o st' Hnd Hne Hrun.
    apply run_tests_body_keeps in Hrun as (Hi & Ho & _).
    apply tests_lookup_same; [done|].
    intros l Hl. apply Ho. intros Hj.
    pose proof (NoDup_lookup _ _ _ _ Hnd Hj Hl). lia.
  - intros st o st' Hrun. unfold run_tests in Hrun.
    rewrite bind_unfold in Hrun. unfold len_tests in Hrun.
    pose proof (run_tests_loop_length _ _ _ _ _ _ _ Hrun) as Hlen.
    apply run_tests_loop_frame in Hrun as (Hi & Ho & _).
    split_and!; [done..|].
    intros Hfirst. apply tests_lookup_same; [done|].
    intros l Hl. apply Ho. intros j Hj Hjl.
    apply (Hfirst j Hj). unfold same_object. by rewrite Hjl, Hl.
Qed.

(** ** Skipped tests and harness errors *)

Lemma run_tests_body_Ret c idx cnt st test result st1 :
  tests st !! idx = Some test →
  exec_test c test st = (Ret result, st1) →
  ∃ st', run_tests_body c idx cnt st = (Ret (count result cnt), st') ∧
         dut st' = dut st1 ∧ trace st' = trace st1 ∧
         items st' = items st.
Proof.
  intros Hidx Hexec.
  pose proof (exec_test_tests _ _ _ _ _ Hexec) as Hsame.
  pose proof (exec_test_items _ _ _ _ _ Hexec) as [Hitems _].
  destruct (set_reboot_flag_total c idx result st1)
    as (st' & Hset & Hdut & Htrace & Hlen).
  { rewrite Hsame. by eapply lookup_lt_Some. }
  exists st'.
  rewrite (run_tests_body_unfold _ _ _ _ _ _ _ Hidx Hexec), Hset.
  split_and!; [done..|]. by rewrite Hlen.
Qed.

Lemma run_tests_loop_step c k idx cnt st cnt' st' :
  run_tests_body c idx cnt st = (Ret cnt', st') →
  run_tests_loop c (S k) idx cnt st = run_tests_loop c k (S idx) cnt' st'.
Proof. intros Hbody. simpl. by rewrite (bind_Ret_step _ _ _ _ _ Hbody). Qed.

Lemma count_single result cnt :
  count result cnt =
    (cnt.1 + count_status FAIL [result], cnt.2 + count_status SKIP [result]).
Proof.
  unfold count, is_fail, is_skip, count_status. destruct cnt as [f s]. simpl.
  destruct (status result) eqn:Hs; simpl;
    rewrite ?filter_cons, ?filter_nil; simpl.
  all: repeat case_decide; simplify_eq; simpl; try congruence.
  all: f_equal; lia.
Qed.

Lemma count_status_app s rs1 rs2 :
  count_status s (rs1 ++ rs2) = count_status s rs1 + count_status s rs2.
Proof. unfold count_status. by rewrite filter_app, length_app. Qed.

Lemma count_status_cons s r rs :
  count_status s (r :: rs) = count_status s [r] + count_status s rs.
Proof. apply (count_status_app s [r] rs). Qed.

Lemma count_status_delete s rs i r :
  rs !! i = Some r →
  count_status s rs = count_status s [r] + count_status s (delete i rs).
Proof.
  intros Hi. rewrite delete_take_drop.
  rewrite <- (take_drop_middle rs i r Hi) at 1.
  rewrite !count_status_app, (count_status_cons s r). lia.
Qed.

Lemma results_of_app tr1 tr2 :
  results_of (tr1 ++ tr2) = results_of tr1 ++ results_of tr2.
Proof. apply omap_app. Qed.

Lemma run_tests_body_Ret_inv c idx cnt st cnt' st' :
  run_tests_body c idx cnt st = (Ret cnt', st') →
  ∃ test result tr,
    tests st !! idx = Some test ∧
    trace st' = trace st ++ tr ∧ iteration_of test result tr ∧
    cnt' = count result cnt ∧
    items st' = items st.
Proof.
  intros Hrun.
  pose proof (run_tests_body_keeps _ _ _ _ _ _ Hrun) as (Hi & _ & _).
  unfold run_tests_body in Hrun.
  apply bind_Ret_inv in Hrun as (test & s1 & Hget & Hrun).
  pose proof (getitem_inv _ _ _ _ Hget) as ->.
  assert (tests st !! idx = Some test) as Htest.
  { unfold getitem in Hget. by destruct (tests st !! idx); simplify_eq. }
  apply bind_Ret_inv in Hrun as (result & s2 & Hexec & Hrun).
  apply bind_Ret_inv in Hrun as ([] & s3 & Hset & Hrun).
  unfold mret, M_ret, ret in Hrun. simplify_eq.
  apply exec_test_Ret_inv in Hexec as (tr & Htr & Hit).
  exists test, result, tr. split_and!; try done.
  apply set_reboot_flag_trace in Hset as (_ & _ & ->). done.
Qed.

(** When the loop returns, it has run one iteration per descriptor, in the
    order of the list, and the counters count the FAIL and the SKIP
    results of these iterations. *)
Lemma run_tests_loop_counts c n idx cnt st cnt' st' :
  run_tests_loop c n idx cnt st = (Ret cnt', st') →
  ∃ segs rs,
    trace st' = trace st ++ concat segs ∧
    results_of (concat segs) = rs ∧
    length segs = n ∧ length rs = n ∧
    (∀ k t, tests st !! (idx + k) = Some t → k < n →
       ∃ r seg, rs !! k = Some r ∧ segs !! k = Some seg ∧
                iteration_of t r seg) ∧
    cnt'.1 = cnt.1 + count_status FAIL rs ∧
    cnt'.2 = cnt.2 + count_status SKIP rs ∧
    items st' = items st.
Proof.
  revert idx cnt st. induction n as [|n IH]; intros idx cnt st Hrun; simpl in Hrun.
  { unfold mret, M_ret, ret in Hrun. simplify_eq. exists [], [].
    simpl. rewrite app_nil_r. unfold count_status. simpl.
    split_and!; try (done || lia); intros k t _ Hk; lia. }
  apply bind_Ret_inv in Hrun as (cnt1 & s1 & Hbody & Hrun).
  pose proof (run_tests_body_keeps _ _ _ _ _ _ Hbody) as (Hi1 & _ & Hf1).
  apply run_tests_body_Ret_inv in Hbody
    as (test & result & tr1 & Htest & Htr1 & Hit & -> & _).
  apply IH in Hrun as (segs & rs & Htr2 & Hres & Hls & Hlr & Hsegs & Hf & Hs & Hi2).
  destruct (iteration_of_results _ _ _ Hit) as [Hres1 _].
  rewrite count_single in Hf, Hs. simpl in Hf, Hs.
  exists (tr1 :: segs), (result :: rs). split_and!.
  - simpl. by rewrite Htr2, Htr1, app_assoc.
  - simpl. by rewrite results_of_app, Hres1, Hres.
  - simpl. by rewrite Hls.
  - simpl. by rewrite Hlr.
  - intros k t Ht Hk. destruct k as [|k].
    + rewrite Nat.add_0_r in Ht. simplify_eq. by exists result, tr1.
    + destruct (tests_lookup_keeps st s1 (idx + S k) t Hi1 Hf1 Ht) as [v Hv].
      replace (idx + S k) with (S idx + k) in Hv by lia.
      destruct (Hsegs k _ Hv) as (r & seg & Hr & Hseg & Hit'); [lia|].
      exists r, seg. split_and!; [done..|]. by eapply iteration_of_flag.
  - rewrite (count_status_cons FAIL). lia.
  - rewrite (count_status_cons SKIP). lia.
  - congruence.
Qed.

Lemma run_tests_counts c st fails skips st' :
  run_tests c st = (Ret (fails, skips), st') →
  ∃ segs rs,
    trace st' = trace st ++ concat segs ∧
    results_of (concat segs) = rs ∧
    length segs = length (tests st) ∧ length rs = length (tests st) ∧
    (∀ j t, tests st !! j = Some t →
       ∃ r seg, rs !! j = Some r ∧ segs !! j = Some seg ∧
                iteration_of t r seg) ∧
    fails = count_status FAIL rs ∧
    skips = count_status SKIP rs ∧
    items st' = items st.
Proof.
  unfold run_tests. rewrite bind_unfold. unfold len_tests. intros Hloop.
  apply run_tests_loop_counts in Hloop
    as (segs & rs & Htr & Hres & Hls & Hlr & Hsegs & Hf & Hs & Hi).
  exists segs, rs. split_and!; try done.
  intros j t Ht. apply (Hsegs j t Ht). by eapply lookup_lt_Some.
Qed.

(** C6. A descriptor with [ignore = true] is skipped.  The iteration that
    processes it calls neither [build_test] nor a harness: it only prints
    the name and the SKIP result, leaves the world as it is, adds one to
    the skip counter and nothing to the fail counter, and the loop goes on
    with these counters.  When [run_tests] returns [fail, skip], it has run
    one iteration per descriptor, each with one result; the iteration of
    the ignored descriptor consists of the two prints, its result is SKIP,
    and it accounts for exactly one of [skip] and for none of [fail]: the
    counters are one plus the number of SKIP results, and the number of
    FAIL results, of the other iterations. *)
Theorem ignored_test_is_skipped c idx st test :
  tests st !! idx = Some test →
  ignore test = true →
  (∀ cnt, ∃ st1,
     run_tests_body c idx cnt st = (Ret (cnt.1, cnt.2 + 1), st1) ∧
     dut st1 = dut st ∧
     trace st1 = trace st ++
       [EvPrintName (name test);
        EvPrintResult (mkTestResult (name test) SKIP "")] ∧
     (∀ k, run_tests_loop c (S k) idx cnt st =
           run_tests_loop c k (S idx) (cnt.1, cnt.2 + 1) st1)) ∧
  (∀ fails skips st',
     run_tests c st = (Ret (fails, skips), st') →
     ∃ segs rs,
       trace st' = trace st ++ concat segs ∧
       length segs = length (tests st) ∧
       length rs = length (tests st) ∧
       (∀ j seg, segs !! j = Some seg →
          ∃ r, rs !! j = Some r ∧ results_of seg = [r]) ∧
       segs !! idx = Some [EvPrintName (name test);
                           EvPrintResult (mkTestResult (name test) SKIP "")] ∧
       (∀ e, e ∈ [EvPrintName (name test);
                  EvPrintResult (mkTestResult (name test) SKIP "")] →
             is_exec_event e = false) ∧
       rs !! idx = Some (mkTestResult (name test) SKIP "") ∧
       skips = 1 + count_status SKIP (delete idx rs) ∧
       fails = count_status FAIL (delete idx rs)).
Proof.
  intros Hidx Hign. split.
  - intros cnt.
    pose proof (exec_test_ignored c test st Hign) as Hexec.
    destruct (run_tests_body_Ret c idx cnt st test _ _ Hidx Hexec)
      as (st' & Hbody & Hdut & Htrace & _).
    exists st'. split_and!; try done.
    intros k. by apply run_tests_loop_step.
  - intros fails skips st' Hrun.
    apply run_tests_counts in Hrun
      as (segs & rs & Htr & Hres & Hls & Hlr & Hsegs & Hf & Hs & _).
    destruct (Hsegs idx test Hidx) as (r & seg & Hr & Hseg & Hit).
    unfold iteration_of in Hit. rewrite Hign in Hit. destruct Hit as [-> ->].
    exists segs, rs. split_and!; try done.
    + intros j seg Hj.
      destruct (lookup_lt_is_Some_2 (tests st) j) as [t Ht].
      { rewrite <- Hls. by eapply lookup_lt_Some. }
      destruct (Hsegs j t Ht) as (r' & seg' & Hr' & Hseg' & Hit').
      exists r'. split; [done|]. rewrite Hseg' in Hj. simplify_eq.
      by apply iteration_of_results in Hit' as [? _].
    + intros e He. by repeat (apply elem_of_cons in He as [->|He]);
        try apply elem_of_nil in He.
    + rewrite Hs, (count_status_delete SKIP rs idx _ Hr). done.
    + rewrite Hf, (count_status_delete FAIL rs idx _ Hr). done.
Qed.

Lemma exec_test_total c t st :
  harnesses_total (target c) →
  ∃ result st1, exec_test c t st = (Ret result, st1).
Proof.
  intros Htot. destruct (ignore t) eqn:Hign.
  { eexists; eexists. by apply exec_test_ignored. }
  destruct (Htot t (dut st)) as (h & w1 & Hbuild & Hcall).
  destruct (Hcall w1) as (w2 & [(res & Hh)|(m & Hh)]).
  - eexists; eexists. by eapply exec_test_returns.
  - eexists; eexists. by eapply exec_test_harness_error.
Qed.

Lemma run_tests_loop_total c n idx cnt st :
  harnesses_total (target c) →
  idx + n = length (tests st) →
  ∃ cnt' st', run_tests_loop c n idx cnt st = (Ret cnt', st').
Proof.
  intros Htot. revert idx cnt st.
  induction n as [|n IH]; intros idx cnt st Hlen.
  { by eexists; eexists. }
  destruct (lookup_lt_is_Some_2 (tests st) idx) as [test Htest]; [lia|].
  destruct (exec_test_total c test st Htot) as (result & st1 & Hexec).
  destruct (run_tests_body_Ret c idx cnt st test _ _ Htest Hexec)
    as (st2 & Hbody & _ & _ & Hi2).
  destruct (IH (S idx) (count result cnt) st2) as (cnt' & st' & Hloop).
  { rewrite length_tests, Hi2, <- length_tests. lia. }
  exists cnt', st'. by rewrite (run_tests_loop_step _ _ _ _ _ _ _ Hbody).
Qed.

(** C7. When the harness of test [idx] raises [HarnessError], the
    iteration ends normally: the result that is printed and counted is
    FAIL with the message of the error, and the loop goes on with the
    next index.  When every harness of the target returns or raises
    [HarnessError], [run_tests] returns and has printed one result per
    descriptor. *)
Theorem harness_error_is_recorded c :
  (∀ idx cnt st test h w1 m w2,
     tests st !! idx = Some test →
     ignore test = false →
     build_test (target c) test (dut st) = (Ret (Some h), w1) →
     h w1 = (Raise (HarnessError m), w2) →
     ∃ st',
       run_tests_body c idx cnt st = (Ret (cnt.1 + 1, cnt.2), st') ∧
       dut st' = w2 ∧
       trace st' = trace st ++
         [EvPrintName (name test); EvBuildTest test; EvHarnessCall test;
          EvPrintResult (mkTestResult (name test) FAIL m)] ∧
       (∀ k, run_tests_loop c (S k) idx cnt st =
             run_tests_loop c k (S idx) (cnt.1 + 1, cnt.2) st')) ∧
  (harnesses_total (target c) →
   ∀ st, ∃ fails skips st' tr,
     run_tests c st = (Ret (fails, skips), st') ∧
     trace st' = trace st ++ tr ∧
     length (results_of tr) = length (tests st)).
Proof.
  split.
  - intros idx cnt st test h w1 m w2 Hidx Hign Hbuild Hcall.
    pose proof (exec_test_harness_error c test st h w1 m w2 Hign Hbuild Hcall)
      as Hexec.
    destruct (run_tests_body_Ret c idx cnt st test _ _ Hidx Hexec)
      as (st' & Hbody & Hdut & Htrace & _).
    exists st'. split_and!; try done.
    intros k. by apply run_tests_loop_step.
  - intros Htot st.
    destruct (run_tests_loop_total c (length (tests st)) 0 (0, 0) st Htot)
      as ([fails skips] & st' & Hloop); [done|].
    destruct (run_tests_loop_counts _ _ _ _ _ _ _ Hloop)
      as (segs & rs & Htr & Hres & _ & Hn & _).
    exists fails, skips, st', (concat segs). split_and!; [done..|].
    by rewrite Hres.
Qed.

(** ** The campaign *)

Lemma extern_inv {A} (f : World → Outcome A * World) st o st' :
  extern f st = (o, st') → tests st' = tests st ∧ trace st' = trace st.
Proof.
  unfold extern. destruct (f (dut st)) as [o' w]. intros Hx. by simplify_eq.
Qed.

Lemma parse_tests_loop_inv c ys acc st o st' :
  parse_tests_loop c ys acc st = (o, st') →
  tests st' = tests st ∧ trace st' = trace st.
Proof.
  revert acc st. induction ys as [|y ys IH]; intros acc st Hrun; simpl in Hrun.
  { unfold mret, M_ret, ret in Hrun. by simplify_eq. }
  apply bind_inv in Hrun as [(e & Hx & _)|(ts & s1 & Hx & Hrun)].
  - by eapply extern_inv.
  - apply extern_inv in Hx as [Ht Htr]. apply IH in Hrun as [Ht' Htr'].
    by rewrite Ht', Htr'.
Qed.

Lemma parse_tests_inv self st o st' :
  parse_tests self st = (o, st') →
  tests st' = tests st ∧ trace st' = trace st.
Proof.
  unfold parse_tests. intros Hrun.
  apply bind_inv in Hrun as [(e & Hs & _)|(ys & s1 & Hs & Hrun)].
  - unfold pure_outcome in Hs. by simplify_eq.
  - unfold pure_outcome in Hs. simplify_eq. by eapply parse_tests_loop_inv.
Qed.

(** The list that [bind_tests] puts in the state shows the descriptors
    that it was given. *)
Lemma store_of_tests (ts : list TestOptions) (rest : nat → TestOptions) :
  store_of ts rest <$> seq 0 (length ts) = ts.
Proof.
  apply list_eq. intros i. rewrite list_lookup_fmap.
  destruct (ts !! i) as [t|] eqn:Hi.
  - rewrite lookup_seq_lt by (by eapply lookup_lt_Some). simpl.
    unfold store_of. by rewrite Hi.
  - rewrite lookup_seq_ge; [done|]. by apply lookup_ge_None_1.
Qed.

Lemma bind_tests_tests ts st o st' :
  bind_tests ts st = (o, st') →
  o = Ret tt ∧ tests st' = ts ∧ dut st' = dut st ∧ trace st' = trace st.
Proof.
  unfold bind_tests. intros Hb. simplify_eq. split_and!; try done.
  apply store_of_tests.
Qed.

Lemma flash_Ret self st st' :
  flash self st = (Ret tt, st') →
  tests st' = tests st ∧
  trace st' = trace st ++
    [EvPrint "Flashing an image to device..."; EvFlashDut; EvPrint "Done!"].
Proof.
  unfold flash, extern, raise.
  unfold mbind, M_bind, bind, emit, mret, M_ret, ret. simpl.
  intros Hrun.
  repeat (case_match; simplify_eq/=). by rewrite <- !app_assoc.
Qed.

Lemma run_prologue_Ret self st st1 :
  run_prologue self st = (Ret tt, st1) →
  ∃ ts s0 tr,
    parse_tests self st = (Ret ts, s0) ∧ tests st1 = ts ∧
    trace st1 = trace st ++ tr ∧ results_of tr = [] ∧
    Forall (λ e, is_exec_event e = false) tr.
Proof.
  unfold run_prologue. intros Hrun.
  apply bind_Ret_inv in Hrun as (ts & s1 & Hparse & Hrun).
  pose proof (parse_tests_inv _ _ _ _ Hparse) as [_ Htr1].
  apply bind_Ret_inv in Hrun as ([] & s2 & Hbind & Hrun).
  apply bind_tests_tests in Hbind as (_ & Hts & _ & Htr2).
  exists ts, s1.
  destruct (should_flash (ctx self)).
  - apply flash_Ret in Hrun as [Hsame Hrun]. rewrite Htr2, Htr1 in Hrun.
    eexists. split_and!; [done|congruence|exact Hrun|done|by repeat constructor].
  - unfold mret, M_ret, ret in Hrun. simplify_eq.
    exists []. rewrite app_nil_r. split_and!; [done|done|congruence|done|done].
Qed.

Lemma run_prologue_step self st st1 :
  run_prologue self st = (Ret tt, st1) →
  run self st =
    (if negb (should_test (ctx self)) then mret true
     else
       _add_tests_module_to_syspath (project_path (ctx self));;
       r ← run_tests (ctx self);
       n ← len_tests;
       emit (EvSummary n (Z.of_nat n - Z.of_nat r.1 - Z.of_nat r.2) r.1 r.2);;
       mret (bool_decide (r.1 = 0))) st1.
Proof.
  intros Hpro. unfold run_prologue in Hpro.
  apply bind_Ret_inv in Hpro as (ts & s1 & Hparse & Hpro).
  apply bind_Ret_inv in Hpro as ([] & s2 & Hbind & Hflash).
  unfold run.
  rewrite (bind_Ret_step _ _ _ _ _ Hparse), (bind_Ret_step _ _ _ _ _ Hbind).
  by rewrite (bind_Ret_step _ _ _ _ _ Hflash).
Qed.

Lemma run_Ret_prologue self st b st' :
  run self st = (Ret b, st') →
  ∃ st1, run_prologue self st = (Ret tt, st1).
Proof.
  intros Hrun. unfold run in Hrun.
  apply bind_Ret_inv in Hrun as (ts & s1 & Hparse & Hrun).
  apply bind_Ret_inv in Hrun as ([] & s2 & Hbind & Hrun).
  apply bind_Ret_inv in Hrun as ([] & s3 & Hflash & _).
  exists s3. unfold run_prologue.
  by rewrite (bind_Ret_step _ _ _ _ _ Hparse), (bind_Ret_step _ _ _ _ _ Hbind).
Qed.

Lemma count_status_none s rs :
  (∀ r, r ∈ rs → status r ≠ s) → count_status s rs = 0.
Proof.
  unfold count_status. induction rs as [|r rs IH]; intros Hrs; [done|].
  rewrite filter_cons. destruct (decide (status r = s)) as [Heq|Hne].
  - exfalso. by eapply (Hrs r); [left|].
  - apply IH. intros r' Hr'. apply Hrs. by right.
Qed.

(** What [run] does after the prologue when tests are to be run, and
    returns *)
Lemma run_tests_part self st1 b st' :
  should_test (ctx self) = true →
  (_add_tests_module_to_syspath (project_path (ctx self));;
   r ← run_tests (ctx self);
   n ← len_tests;
   emit (EvSummary n (Z.of_nat n - Z.of_nat r.1 - Z.of_nat r.2) r.1 r.2);;
   mret (bool_decide (r.1 = 0))) st1 = (Ret b, st') →
  ∃ s2 fails skips s4,
    s2 = with_io (dut st1)
           (trace st1 ++
            [EvSysPathInsert
               (path_str (joinpath (project_path (ctx self))
                            "phoenix-rtos-tests"))]) st1 ∧
    run_tests (ctx self) s2 = (Ret (fails, skips), s4) ∧
    st' = with_io (dut s4)
            (trace s4 ++
             [EvSummary (length (tests s4))
                (Z.of_nat (length (tests s4)) - Z.of_nat fails - Z.of_nat skips)
                fails skips]) s4 ∧
    b = bool_decide (fails = 0).
Proof.
  intros Htest Hrun.
  apply bind_Ret_inv in Hrun as ([] & s2 & Hsys & Hrun).
  unfold _add_tests_module_to_syspath, emit in Hsys. simplify_eq.
  apply bind_Ret_inv in Hrun as ([fails skips] & s4 & Htests & Hrun).
  apply bind_Ret_inv in Hrun as (n & s3 & Hlen' & Hrun).
  unfold len_tests in Hlen'. simplify_eq.
  apply bind_Ret_inv in Hrun as ([] & s5 & Hsum & Hrun).
  unfold emit in Hsum. unfold mret, M_ret, ret in Hrun. simplify_eq.
  eexists _, fails, skips, s3. split_and!; [reflexivity|exact Htests|done|done].
Qed.

(** C5. When [run] returns, it returns True exactly when none of the
    results that were printed in this run is FAIL; results that are OK or
    SKIP never make it return False.  When [should_test] is false, [run]
    returns True as soon as parsing and flashing are over, and no test
    has been built or called.  When [should_test] is true and every
    harness returns or raises [HarnessError], [run] returns a value. *)
Theorem run_succeeds_iff_no_failure self st :
  (∀ b st',
     run self st = (Ret b, st') →
     ∃ tr,
       trace st' = trace st ++ tr ∧
       (b = true ↔ count_status FAIL (results_of tr) = 0) ∧
       ((∀ r, r ∈ results_of tr → status r = OK ∨ status r = SKIP) →
        b = true) ∧
       (should_test (ctx self) = true →
        length (results_of tr) = length (tests st')) ∧
       (should_test (ctx self) = false →
        b = true ∧ results_of tr = [] ∧
        Forall (λ e, is_exec_event e = false) tr)) ∧
  (∀ st1,
     run_prologue self st = (Ret tt, st1) →
     (should_test (ctx self) = false → run self st = (Ret true, st1)) ∧
     (should_test (ctx self) = true →
      harnesses_total (target (ctx self)) →
      ∃ b st', run self st = (Ret b, st'))).
Proof.
  split.
  - intros b st' Hrun.
    destruct (run_Ret_prologue _ _ _ _ Hrun) as [st1 Hpro].
    rewrite (run_prologue_step _ _ _ Hpro) in Hrun.
    destruct (run_prologue_Ret _ _ _ Hpro)
      as (ts & s0 & tr0 & _ & _ & Htr0 & Hres0 & Hexec0).
    destruct (should_test (ctx self)) eqn:Htest; simpl in Hrun.
    + apply run_tests_part in Hrun as (s2 & fails & skips & s4 & -> & Htests & -> & ->);
        [|done].
      apply run_tests_counts in Htests
        as (segs & rs & Htr2 & Hres & _ & Hlr & _ & Hfails & _ & Hi).
      simpl in Htr2, Hlr.
      eexists. split.
      { simpl. rewrite Htr2, Htr0. rewrite <- !app_assoc. reflexivity. }
      rewrite !results_of_app, Hres0, Hres. simpl. rewrite app_nil_r.
      assert (Hiff : bool_decide (fails = 0) = true ↔ count_status FAIL rs = 0).
      { rewrite bool_decide_eq_true. by rewrite Hfails. }
      split_and!.
      * done.
      * intros Hall. apply Hiff. apply count_status_none.
        intros r Hr. by destruct (Hall r Hr) as [-> | ->].
      * intros _. simpl in Hi. rewrite Hlr, !length_tests. simpl.
        by rewrite Hi.
      * done.
    + unfold mret, M_ret, ret in Hrun. simplify_eq.
      exists tr0. rewrite Hres0. by split_and!.
  - intros st1 Hpro. rewrite (run_prologue_step _ _ _ Hpro). split.
    + by intros ->.
    + intros -> Htot. simpl.
      unfold _add_tests_module_to_syspath, emit.
      rewrite bind_unfold. rewrite bind_unfold.
      unfold run_tests. rewrite bind_unfold.
      unfold len_tests at 1.
      match goal with
      | |- context [run_tests_loop ?c ?n ?i ?cnt ?s] =>
          destruct (run_tests_loop_total c n i cnt s Htot)
            as (cnt' & s' & ->); [done|]
      end.
      by eexists; eexists.
Qed.

(** ** Discovery *)

Lemma is_file_not_dir (p : Path) : is_file p = true → is_dir p = false.
Proof.
  unfold is_file, is_dir. intros Hf%bool_decide_eq_true.
  apply bool_decide_eq_false. by rewrite Hf.
Qed.

Lemma yamls_of_cases (p : Path) :
  (rejected_path p ∧ ∃ m, yamls_of p = Raise (ValueError m)) ∨
  (¬ rejected_path p ∧ yamls_of p = Ret (found_by p)).
Proof.
  unfold yamls_of, found_by, rejected_path.
  destruct (is_dir p) eqn:Hdir.
  - destruct (rglob p "test*.yaml" ++ rglob p "test*.yml") as [|y ys] eqn:Hglob.
    + left. split; [by left|by eexists].
    + right. split; [|done].
      intros [[_ ?]|[[Hf _]|[? _]]]; try done.
      apply is_file_not_dir in Hf. congruence.
  - destruct (is_file p) eqn:Hfile.
    + destruct (bool_decide (suffix p ≠ ".yaml") && bool_decide (suffix p ≠ ".yml"))
        eqn:Hsuf.
      * apply andb_true_iff in Hsuf as [H1%bool_decide_eq_true H2%bool_decide_eq_true].
        left. split; [by right; left|by eexists].
      * right. split; [|done].
        intros [[? _]|[(_ & H1 & H2)|[_ ?]]]; try done.
        apply andb_false_iff in Hsuf as [H%bool_decide_eq_false|H%bool_decide_eq_false];
          done.
    + left. split; [by right; right|by eexists].
Qed.

Lemma search_for_tests_loop_cases (todo paths : list Path) :
  ((∃ p, p ∈ todo ∧ rejected_path p) ∧
   ∃ m, search_for_tests_loop todo paths = Raise (ValueError m)) ∨
  ((∀ p, p ∈ todo → ¬ rejected_path p) ∧
   search_for_tests_loop todo paths = Ret (paths ++ concat (found_by <$> todo))).
Proof.
  revert paths. induction todo as [|p todo IH]; intros paths; simpl.
  { right. split; [by intros p ?%elem_of_nil|by rewrite app_nil_r]. }
  destruct (yamls_of_cases p) as [[Hbad [m ->]]|[Hgood ->]].
  { left. split; [exists p; split; [left|done]|by eexists]. }
  destruct (IH (paths ++ found_by p)) as [[(q & Hq & Hbad) Hraise]|[Hall ->]].
  - left. split; [|done]. exists q. split; [by right|done].
  - right. split; [|by rewrite app_assoc].
    intros q [->|Hq]%elem_of_cons; [done|by apply Hall].
Qed.

(** C8. [search_for_tests] raises (a [ValueError]) exactly when some
    entry of [test_paths] is a directory in which [rglob] finds neither a
    [test*.yaml] nor a [test*.yml], or is a file whose suffix is neither
    [.yaml] nor [.yml], or is neither a directory nor a file; otherwise
    it returns, in the order of [test_paths], the matches found in each
    directory and each file itself. *)
Theorem search_for_tests_outcome self :
  ((∃ e, search_for_tests self = Raise e) ↔
   (∃ p, p ∈ test_paths self ∧ rejected_path p)) ∧
  (∀ e, search_for_tests self = Raise e → ∃ m, e = ValueError m) ∧
  ((∀ p, p ∈ test_paths self → ¬ rejected_path p) →
   search_for_tests self = Ret (concat (found_by <$> test_paths self))).
Proof.
  unfold search_for_tests.
  destruct (search_for_tests_loop_cases (test_paths self) [])
    as [[Hbad [m Hraise]]|[Hall Hret]].
  - rewrite Hraise. split_and!.
    + split; [done|by eexists].
    + intros e [= <-]. by eexists.
    + intros Hall. destruct Hbad as (p & Hp & Hbad). by destruct (Hall p Hp).
  - rewrite Hret. split_and!.
    + split; [by intros [e ?]|].
      intros (p & Hp & Hbad). by destruct (Hall p Hp).
    + by intros e ?.
    + done.
Qed.
End RunnerFacts.

(** ** The login dialogue *)

Section LoginFacts.
Context {Session : Type} `{!Spawn Session}.
Implicit Types (d : Dialogue Session) (login passwd : string).

(** C10. [log_in] sends the password line only after both
    [expect_exact] calls have returned index 0.  If the echo of the login
    is not matched (the first call returns another index), it raises
    [AssertionError] with the message of the first assertion; if the
    [Password:] prompt is not matched, it raises [AssertionError]; in
    both cases, and whenever it raises at all, the login line is the only
    line that was sent.  If both match, it returns after sending the login
    line and then the password line, and nothing else. *)
Theorem password_sent_after_both_prompts login passwd d :
  (∀ i s1,
     spawn_expect_exact [Exact login; TIMEOUT]
       (spawn_send (login +:+ newline) (session d)) = (Ret i, s1) →
     i ≠ 0 →
     log_in login passwd d =
       (Raise (AssertionError "Cannot enter login to login prompt"),
        {| session := s1; sent := sent d ++ [login +:+ newline] |})) ∧
  (∀ s1 j s2,
     spawn_expect_exact [Exact login; TIMEOUT]
       (spawn_send (login +:+ newline) (session d)) = (Ret 0, s1) →
     spawn_expect_exact [Exact "Password:"; TIMEOUT] s1 = (Ret j, s2) →
     j ≠ 0 →
     log_in login passwd d =
       (Raise (AssertionError ""),
        {| session := s2; sent := sent d ++ [login +:+ newline] |})) ∧
  (∀ s1 s2,
     spawn_expect_exact [Exact login; TIMEOUT]
       (spawn_send (login +:+ newline) (session d)) = (Ret 0, s1) →
     spawn_expect_exact [Exact "Password:"; TIMEOUT] s1 = (Ret 0, s2) →
     log_in login passwd d =
       (Ret tt,
        {| session := spawn_send (passwd +:+ newline) s2;
           sent := sent d ++ [login +:+ newline; passwd +:+ newline] |})) ∧
  (∀ o d',
     log_in login passwd d = (o, d') →
     (o = Ret tt ∧
      sent d' = sent d ++ [login +:+ newline; passwd +:+ newline] ∧
      ∃ s1 s2,
        spawn_expect_exact [Exact login; TIMEOUT]
          (spawn_send (login +:+ newline) (session d)) = (Ret 0, s1) ∧
        spawn_expect_exact [Exact "Password:"; TIMEOUT] s1 = (Ret 0, s2)) ∨
     (∃ e, o = Raise e ∧ sent d' = sent d ++ [login +:+ newline])).
Proof.
  unfold log_in, send, expect_exact, py_assert, raise.
  unfold mbind, M_bind, bind, mret, M_ret, ret. simpl.
  split_and!.
  - intros i s1 -> Hi. simpl. by rewrite bool_decide_eq_false_2.
  - intros s1 j s2 -> H2 Hj. simpl. rewrite H2. simpl.
    by rewrite bool_decide_eq_false_2.
  - intros s1 s2 -> H2. simpl. rewrite H2. simpl. by rewrite <- app_assoc.
  - intros o d'.
    destruct (spawn_expect_exact [Exact login; TIMEOUT] _) as [[i|e] s1];
      simpl; [|intros; simplify_eq; right; by eexists].
    destruct (decide (i = 0)) as [->|Hi]; simpl;
      [|rewrite bool_decide_eq_false_2 by done;
        intros; simplify_eq; right; by eexists].
    destruct (spawn_expect_exact [Exact "Password:"; TIMEOUT] s1)
      as [[j|e] s2] eqn:H2; simpl; [|intros; simplify_eq; right; by eexists].
    destruct (decide (j = 0)) as [->|Hj]; simpl;
      [|rewrite bool_decide_eq_false_2 by done;
        intros; simplify_eq; right; by eexists].
    intros; simplify_eq. left. simpl. rewrite <- app_assoc.
    split_and!; try done. by exists s1, s2.
Qed.
End LoginFacts.

(** ** The statements at work on the bench *)

Import Demo.

(** A failing first test: the second descriptor, whose flag was False, is
    left with the flag True. *)
Lemma reboot_after_failure_witness :
  ∃ st' nxt',
    run_tests_body (demo_ctx false true false) 0 (0, 0)
      (demo_state [t_fails; t_quiet]) = (Ret (1, 0), st') ∧
    tests st' !! 1 = Some nxt' ∧
    should_reboot nxt' = true.
Proof.
  eapply (reboot_after_failure (demo_ctx false true false) 0 (0, 0)
            (demo_state [t_fails; t_quiet]) t_fails t_quiet
            (mkTestResult "fails" FAIL "mismatch")).
  - reflexivity.
  - reflexivity.
  - vm_compute. reflexivity.
  - reflexivity.
Defined.

(** An ignored first test whose flag is True, nightly mode off, a second
    descriptor without bootloader: the result is SKIP, none of the three
    overrides holds, and yet the flag of the second descriptor is True
    after the iteration. *)
Lemma no_reboot_claim_fails_after_skip :
  tests (demo_state [t_ignored; t_quiet]) !! 1 = Some t_quiet ∧
  exec_test (demo_ctx false true false) t_ignored
    (demo_state [t_ignored; t_quiet]) =
    (Ret r_skip,
     with_io 0 [EvPrintName "ignored"; EvPrintResult r_skip]
       (demo_state [t_ignored; t_quiet])) ∧
  status r_skip ≠ FAIL ∧
  nightly (demo_ctx false true false) = false ∧
  requires_bootloader_apps t_quiet = false ∧
  should_reboot <$>
    tests (run_tests_body (demo_ctx false true false) 0 (0, 0)
             (demo_state [t_ignored; t_quiet])).2 !! 1 = Some true.
Proof. by split_and!. Qed.

(** A passing first test: the second descriptor, whose flag was True, is
    left with the flag False. *)
Lemma no_reboot_after_quiet_test_witness :
  ∃ st' nxt',
    run_tests_body (demo_ctx false true false) 0 (0, 0)
      (demo_state [t_ok; t_ok]) = (Ret (0, 0), st') ∧
    tests st' !! 1 = Some nxt' ∧
    should_reboot nxt' = false.
Proof.
  eapply (no_reboot_after_quiet_test (demo_ctx false true false) 0 (0, 0)
            (demo_state [t_ok; t_ok]) t_ok t_ok r_ok).
  - reflexivity.
  - reflexivity.
  - vm_compute. reflexivity.
  - discriminate.
  - reflexivity.
  - reflexivity.
  - discriminate.
Defined.

(** Two items that are one ignored descriptor whose flag is True, nightly
    mode off, no bootloader: the result is SKIP and no override holds, and
    yet the flag of [tests[1]] is False after the iteration, not the True
    that [tests[0]] had when it was processed. *)
Lemma skip_on_shared_descriptor_clears_the_flag :
  tests (shared_state t_ignored 2) !! 0 = Some t_ignored ∧
  tests (shared_state t_ignored 2) !! 1 = Some t_ignored ∧
  exec_test (demo_ctx false true false) t_ignored (shared_state t_ignored 2) =
    (Ret r_skip,
     with_io 0 [EvPrintName "ignored"; EvPrintResult r_skip]
       (shared_state t_ignored 2)) ∧
  status r_skip = SKIP ∧
  nightly (demo_ctx false true false) = false ∧
  requires_bootloader_apps t_ignored = false ∧
  should_reboot t_ignored = true ∧
  (run_tests_body (demo_ctx false true false) 0 (0, 0)
     (shared_state t_ignored 2)).1 = Ret (0, 1) ∧
  should_reboot <$>
    tests (run_tests_body (demo_ctx false true false) 0 (0, 0)
             (shared_state t_ignored 2)).2 !! 1 = Some false.
Proof. by split_and!. Qed.

(** An ignored first test: its flag, True, is copied to the second
    descriptor, whose flag was False.  The same test twice in the list, as
    one object: the flag is left False. *)
Lemma reboot_flag_propagates_over_skip_witness :
  (∃ st' nxt',
     run_tests_body (demo_ctx false true false) 0 (0, 0)
       (demo_state [t_ignored; t_quiet]) = (Ret (0, 1), st') ∧
     tests st' !! 1 = Some nxt' ∧
     tests st' !! 0 = Some t_ignored ∧
     should_reboot nxt' = true) ∧
  (∃ st' nxt',
     run_tests_body (demo_ctx false true false) 0 (0, 0)
       (shared_state t_ignored 2) = (Ret (0, 1), st') ∧
     tests st' !! 1 = Some nxt' ∧
     should_reboot nxt' = false).
Proof.
  split.
  - destruct (reboot_flag_propagates_over_skip (demo_ctx false true false)
                0 (0, 0) (demo_state [t_ignored; t_quiet]) t_ignored t_quiet
                r_skip
                (with_io 0 [EvPrintName "ignored"; EvPrintResult r_skip]
                   (demo_state [t_ignored; t_quiet]))
                eq_refl eq_refl eq_refl eq_refl eq_refl eq_refl)
      as (st' & nxt' & Hbody & Hnxt & Hdistinct & _).
    destruct Hdistinct as [Hcur Hflag].
    { intros Hsame. vm_compute in Hsame. discriminate Hsame. }
    exists st', nxt'. split_and!; [exact Hbody|exact Hnxt|exact Hcur|exact Hflag].
  - destruct (reboot_flag_propagates_over_skip (demo_ctx false true false)
                0 (0, 0) (shared_state t_ignored 2) t_ignored t_ignored
                r_skip
                (with_io 0 [EvPrintName "ignored"; EvPrintResult r_skip]
                   (shared_state t_ignored 2))
                eq_refl eq_refl eq_refl eq_refl eq_refl eq_refl)
      as (st' & nxt' & Hbody & Hnxt & _ & Hshared).
    exists st', nxt'. split_and!; [exact Hbody|exact Hnxt|].
    apply Hshared. reflexivity.
Defined.

(** The same OK result and the same descriptors, with nightly mode off and
    on: the flags written differ.  The same SKIP result and the same next
    descriptor, after a descriptor whose flag is True and after one whose
    flag is False: the flags written differ. *)
Lemma reboot_decision_depends_on_nightly_and_flag :
  (should_reboot <$>
     tests (set_reboot_flag (demo_ctx false true false) 0 r_ok
              (demo_state [t_ok; t_ok])).2 !! 1 = Some false ∧
   should_reboot <$>
     tests (set_reboot_flag (demo_ctx false true true) 0 r_ok
              (demo_state [t_ok; t_ok])).2 !! 1 = Some true) ∧
  (should_reboot <$>
     tests (set_reboot_flag (demo_ctx false true false) 0 r_skip
              (demo_state [t_ignored; t_quiet])).2 !! 1 = Some true ∧
   should_reboot <$>
     tests (set_reboot_flag (demo_ctx false true false) 0 r_skip
              (demo_state [t_quiet; t_quiet])).2 !! 1 = Some false).
Proof. by split_and!. Qed.

(** Two calls after a SKIP, in different states and at different indices,
    that agree on the inputs *)
Lemma reboot_decision_inputs_witness :
  ∃ v st1' st2',
    set_reboot_flag (demo_ctx false true false) 0 r_skip
      (demo_state [t_ignored; t_quiet]) = (Ret tt, st1') ∧
    set_reboot_flag (demo_ctx true false false) 1 r_skip
      (demo_state [t_quiet; t_ok; t_fails]) = (Ret tt, st2') ∧
    should_reboot <$> tests st1' !! 1 = Some v ∧
    should_reboot <$> tests st2' !! 2 = Some v.
Proof.
  eapply (reboot_decision_inputs (demo_ctx false true false)
            (demo_ctx true false false) 0 1 r_skip r_skip
            (demo_state [t_ignored; t_quiet])
            (demo_state [t_quiet; t_ok; t_fails])
            t_ignored t_quiet t_ok t_fails).
  - reflexivity.
  - reflexivity.
  - reflexivity.
  - reflexivity.
  - reflexivity.
  - reflexivity.
  - reflexivity.
  - reflexivity.
  - intros _. split; intros Hsame; vm_compute in Hsame; discriminate Hsame.
Defined.

(** Every harness of the bench returns or raises [HarnessError]. *)
Lemma demo_harnesses_total : harnesses_total demo_target.
Proof.
  intros t w. exists (harness_of t), w. split; [done|].
  intros w'. exists (S w'). unfold harness_of.
  repeat case_decide; eauto.
Qed.

(** The three campaigns of the bench *)
Lemma run_succeeds_iff_no_failure_witness :
  (campaign_passing.1 = Ret true ∧
   count_status FAIL (results_of (trace campaign_passing.2)) = 0) ∧
  (campaign_failing.1 = Ret false ∧
   count_status FAIL (results_of (trace campaign_failing.2)) ≠ 0) ∧
  (campaign_flash_only.1 = Ret true ∧
   Forall (λ e, is_exec_event e = false) (trace campaign_flash_only.2)).
Proof.
  split_and!.
  - reflexivity.
  - destruct (proj1 (run_succeeds_iff_no_failure
                       (demo_runner true true false ["tests"]) (demo_state []))
                true campaign_passing.2)
      as (tr & Htr & Hiff & _).
    { vm_compute. reflexivity. }
    rewrite Htr. apply Hiff. reflexivity.
  - reflexivity.
  - destruct (proj1 (run_succeeds_iff_no_failure
                       (demo_runner false true false ["tests"; "cfg/test_c.yaml"])
                       (demo_state []))
                false campaign_failing.2)
      as (tr & Htr & Hiff & _).
    { vm_compute. reflexivity. }
    rewrite Htr. intros Hzero. apply Hiff in Hzero. discriminate Hzero.
  - reflexivity.
  - destruct (proj1 (run_succeeds_iff_no_failure
                       (demo_runner true false false ["tests"]) (demo_state []))
                true campaign_flash_only.2)
      as (tr & Htr & _ & _ & _ & Hnone).
    { vm_compute. reflexivity. }
    rewrite Htr. apply Hnone. reflexivity.
Defined.

(** An ignored descriptor in the middle of the list: its iteration, and
    its share of what [run_tests] returns *)
Lemma ignored_test_is_skipped_witness :
  (∃ st1,
     run_tests_body (demo_ctx false true false) 1 (0, 0)
       (demo_state [t_fails; t_ignored; t_quiet]) = (Ret (0, 1), st1) ∧
     dut st1 = 0 ∧
     trace st1 = [EvPrintName "ignored"; EvPrintResult r_skip]) ∧
  (∃ segs rs,
     trace (run_tests (demo_ctx false true false)
              (demo_state [t_fails; t_ignored; t_quiet])).2 = concat segs ∧
     length segs = 3 ∧
     segs !! 1 = Some [EvPrintName "ignored"; EvPrintResult r_skip] ∧
     rs !! 1 = Some r_skip ∧
     1 = 1 + count_status SKIP (delete 1 rs) ∧
     1 = count_status FAIL (delete 1 rs)).
Proof.
  destruct (ignored_test_is_skipped (demo_ctx false true false) 1
              (demo_state [t_fails; t_ignored; t_quiet]) t_ignored
              eq_refl eq_refl) as [Hbody Hrun].
  split.
  - destruct (Hbody (0, 0)) as (st1 & Hb & Hdut & Htrace & _).
    exists st1. split_and!; [exact Hb|exact Hdut|exact Htrace].
  - destruct (Hrun 1 1
                (run_tests (demo_ctx false true false)
                   (demo_state [t_fails; t_ignored; t_quiet])).2)
      as (segs & rs & Htr & Hls & _ & _ & Hseg & _ & Hr & Hs & Hf).
    { vm_compute. reflexivity. }
    exists segs, rs.
    split_and!; [exact Htr|exact Hls|exact Hseg|exact Hr|exact Hs|exact Hf].
Defined.

(** A first test whose harness raises [HarnessError], followed by a
    passing one *)
Lemma harness_error_is_recorded_witness :
  (∃ st',
     run_tests_body (demo_ctx false true false) 0 (0, 0)
       (demo_state [t_error; t_ok]) = (Ret (1, 0), st') ∧
     trace st' =
       [EvPrintName "error"; EvBuildTest t_error; EvHarnessCall t_error;
        EvPrintResult (mkTestResult "error" FAIL "timeout")]) ∧
  (∃ fails skips st' tr,
     run_tests (demo_ctx false true false) (demo_state [t_error; t_ok]) =
       (Ret (fails, skips), st') ∧
     trace st' = tr ∧
     length (results_of tr) = 2).
Proof.
  split.
  - destruct (proj1 (harness_error_is_recorded (demo_ctx false true false))
                0 (0, 0) (demo_state [t_error; t_ok]) t_error
                (harness_of t_error) 0 "timeout" 1
                eq_refl eq_refl eq_refl eq_refl)
      as (st' & Hbody & _ & Htrace & _).
    exists st'. split; [exact Hbody|exact Htrace].
  - exact (proj2 (harness_error_is_recorded (demo_ctx false true false))
             demo_harnesses_total (demo_state [t_error; t_ok])).
Defined.

(** A directory and a file that are accepted; an empty directory, a text
    file and a path that does not exist, each of which is rejected *)
Lemma search_for_tests_outcome_witness :
  search_for_tests (demo_runner false true false ["tests"; "cfg/test_c.yaml"]) =
    Ret ["tests/test_a.yaml"; "tests/sub/test_b.yml"; "cfg/test_c.yaml"] ∧
  (∃ e, search_for_tests (demo_runner false true false ["tests"; "empty"]) =
        Raise e) ∧
  (∃ e, search_for_tests (demo_runner false true false ["notes.txt"]) =
        Raise e) ∧
  (∃ e, search_for_tests (demo_runner false true false ["tests"; "nowhere"]) =
        Raise e).
Proof.
  split_and!.
  - rewrite (proj2 (proj2 (search_for_tests_outcome
                             (demo_runner false true false
                                ["tests"; "cfg/test_c.yaml"])))); [reflexivity|].
    intros p Hp. simpl in Hp.
    apply elem_of_cons in Hp as [->|Hp];
      [|apply elem_of_cons in Hp as [->|Hp]; [|by apply elem_of_nil in Hp]].
    + intros [[_ H]|[[H _]|[H _]]]; vm_compute in H; discriminate H.
    + intros [[H _]|[(_ & H & _)|[_ H]]]; vm_compute in H;
        solve [discriminate H | by apply H].
  - apply (proj1 (search_for_tests_outcome
                    (demo_runner false true false ["tests"; "empty"]))).
    exists "empty". split; [by right; left|].
    left. split; reflexivity.
  - apply (proj1 (search_for_tests_outcome
                    (demo_runner false true false ["notes.txt"]))).
    exists "notes.txt". split; [by left|].
    right; left. split_and!; [reflexivity|discriminate..].
  - apply (proj1 (search_for_tests_outcome
                    (demo_runner false true false ["tests"; "nowhere"]))).
    exists "nowhere". split; [by right; left|].
    right; right. split; reflexivity.
Defined.

(** Two items that are one ignored descriptor whose flag is True: the
    iteration that processes [tests[0]] writes through [tests[1]] and
    clears the flag of [tests[0]], and [run_tests] returns with the flag of
    [tests[0]] changed. *)
Lemma shared_descriptor_is_written_through_the_next_item :
  should_reboot <$> tests (shared_state t_ignored 2) !! 0 = Some true ∧
  (run_tests_body (demo_ctx false true false) 0 (0, 0)
     (shared_state t_ignored 2)).1 = Ret (0, 1) ∧
  should_reboot <$>
    tests (run_tests_body (demo_ctx false true false) 0 (0, 0)
             (shared_state t_ignored 2)).2 !! 0 = Some false ∧
  (run_tests (demo_ctx false true false) (shared_state t_ignored 2)).1 =
    Ret (0, 2) ∧
  should_reboot <$>
    tests (run_tests (demo_ctx false true false)
             (shared_state t_ignored 2)).2 !! 0 = Some false.
Proof. by split_and!. Qed.

(** Three distinct descriptors: the first iteration leaves the first and
    the third alone and keeps the bootloader options of the second; the
    whole run leaves the first alone, also in nightly mode. *)
Lemma reboot_update_frame_witness :
  (∀ o st',
     run_tests_body (demo_ctx false true false) 0 (0, 0)
       (demo_state [t_fails; t_apps; t_ok]) = (o, st') →
     tests st' !! 0 = Some t_fails ∧ tests st' !! 2 = Some t_ok ∧
     ∃ nxt', tests st' !! 1 = Some nxt' ∧ bootloader nxt' = bootloader t_apps) ∧
  (∀ o st',
     run_tests (demo_ctx false true true)
       (demo_state [t_fails; t_apps; t_ok]) = (o, st') →
     tests st' !! 0 = Some t_fails).
Proof.
  destruct (reboot_update_frame (demo_ctx false true false))
    as (_ & Hbody & _ & _).
  destruct (reboot_update_frame (demo_ctx false true true))
    as (_ & _ & _ & Hrun).
  split.
  - intros o st' Heq.
    destruct (Hbody 0 (0, 0) _ o st' Heq) as (_ & _ & _ & Hother & Hnext & _).
    split_and!.
    + rewrite (Hother 0); [reflexivity|].
      intros Hsame. vm_compute in Hsame. discriminate Hsame.
    + rewrite (Hother 2); [reflexivity|].
      intros Hsame. vm_compute in Hsame. discriminate Hsame.
    + destruct (Hnext t_apps eq_refl) as (nxt' & Hn & _ & _ & Hb & _).
      by exists nxt'.
  - intros o st' Heq.
    destruct (Hrun _ o st' Heq) as (_ & _ & Hzero).
    rewrite Hzero; [reflexivity|].
    intros j Hj Hsame. unfold same_object in Hsame.
    destruct j as [|[|[|j]]]; [lia|discriminate Hsame..].
Defined.

(** Three scripted sessions: both patterns match, the echo of the login
    times out, the password prompt times out. *)
Lemma password_sent_after_both_prompts_witness :
  log_in "root" "secret" (demo_dialogue [0; 0]) =
    (Ret tt, {| session := [];
                sent := ["root" +:+ newline; "secret" +:+ newline] |}) ∧
  log_in "root" "secret" (demo_dialogue [1; 0]) =
    (Raise (AssertionError "Cannot enter login to login prompt"),
     {| session := [0]; sent := ["root" +:+ newline] |}) ∧
  log_in "root" "secret" (demo_dialogue [0; 1]) =
    (Raise (AssertionError ""),
     {| session := []; sent := ["root" +:+ newline] |}).
Proof.
  destruct (password_sent_after_both_prompts "root" "secret" (demo_dialogue [0; 0]))
    as (_ & _ & Hboth & _).
  destruct (password_sent_after_both_prompts "root" "secret" (demo_dialogue [1; 0]))
    as (Hecho & _).
  destruct (password_sent_after_both_prompts "root" "secret" (demo_dialogue [0; 1]))
    as (_ & Hprompt & _).
  split_and!.
  - exact (Hboth [0] [] eq_refl eq_refl).
  - refine (Hecho 1 [0] eq_refl _). discriminate.
  - refine (Hprompt [1] 1 [] eq_refl eq_refl _). discriminate.
Defined.

(** * Further properties of the runner *)

Section RunnerMore.
Context {World Path : Type} `{!Pathlib Path}.
Implicit Types (st : State World) (c : RunContext World Path).
Implicit Types (self : TestRunner World Path).
Implicit Types (t cur nxt test : TestOptions) (result r : TestResult).
Implicit Types (i j k idx n l : nat).

(** ** The counters and the summary *)

Lemma count_status_total rs :
  count_status FAIL rs + count_status SKIP rs + count_status OK rs = length rs.
Proof.
  unfold count_status. induction rs as [|r rs IH]; [done|].
  rewrite !filter_cons. simpl.
  destruct (status r) eqn:Hs; repeat case_decide; simplify_eq; simpl; lia.
Qed.

(** X1. When [run_tests] returns [fail, skip], it has run one iteration
    for every descriptor, in the order of the list: what it added to the
    trace is the concatenation of one segment per descriptor, and the
    segment of [tests[j]] is the iteration of that descriptor, with its
    name, with exactly one result, and without any call when the
    descriptor is ignored.  [fail] is the number of FAIL results and
    [skip] the number of SKIP results among the results of these
    iterations, and the remaining results, as many as
    [len(tests) - fail - skip], are the OK ones. *)
Theorem run_tests_counters c st fails skips st' :
  run_tests c st = (Ret (fails, skips), st') →
  ∃ segs rs,
    trace st' = trace st ++ concat segs ∧
    results_of (concat segs) = rs ∧
    length segs = length (tests st) ∧
    length rs = length (tests st) ∧
    (∀ j t, tests st !! j = Some t →
       ∃ r seg, rs !! j = Some r ∧ segs !! j = Some seg ∧
                iteration_of t r seg ∧ results_of seg = [r] ∧
                (ignore t = true →
                 seg = [EvPrintName (name t);
                        EvPrintResult (mkTestResult (name t) SKIP "")])) ∧
    fails = count_status FAIL rs ∧
    skips = count_status SKIP rs ∧
    fails + skips + count_status OK rs = length (tests st).
Proof.
  intros Hrun.
  apply run_tests_counts in Hrun
    as (segs & rs & Htr & Hres & Hls & Hlr & Hsegs & Hf & Hs & _).
  exists segs, rs. split_and!; try done.
  - intros j t Ht. destruct (Hsegs j t Ht) as (r & seg & Hr & Hseg & Hit).
    exists r, seg. split_and!; try done.
    + by apply iteration_of_results in Hit as [? _].
    + intros Hign. unfold iteration_of in Hit. rewrite Hign in Hit.
      by destruct Hit as [-> ->].
  - rewrite Hf, Hs, <- Hlr. apply count_status_total.
Qed.

Lemma run_tests_keeps c st o st' :
  run_tests c st = (o, st') →
  items st' = items st ∧
  (∀ l, ∃ v, objects st' l = with_should_reboot v (objects st l)).
Proof.
  unfold run_tests. rewrite bind_unfold. unfold len_tests.
  by intros (Hi & _ & Hf)%run_tests_loop_frame.
Qed.

(** X2. When [run] returns after running the tests, the last thing it
    printed is the summary, in which the total is the number of
    descriptors that [parse_tests] returned; the list of the runner still
    holds these descriptors, up to their flags.  The failed and skipped
    counts are the numbers of FAIL and SKIP results printed, the passed
    count is the number of OK results, and the total is the sum of the
    three; the value returned tells whether the failed count is zero. *)
Theorem run_summary_is_consistent self st b st' :
  should_test (ctx self) = true →
  run self st = (Ret b, st') →
  ∃ ts s0 tr total passes fails skips,
    parse_tests self st = (Ret ts, s0) ∧
    total = length ts ∧
    length (tests st') = length ts ∧
    (∀ j t, ts !! j = Some t →
       ∃ v, tests st' !! j = Some (with_should_reboot v t)) ∧
    trace st' = trace st ++ tr ++ [EvSummary total passes fails skips] ∧
    length (results_of tr) = total ∧
    fails = count_status FAIL (results_of tr) ∧
    skips = count_status SKIP (results_of tr) ∧
    passes = Z.of_nat (count_status OK (results_of tr)) ∧
    (passes + Z.of_nat fails + Z.of_nat skips)%Z = Z.of_nat total ∧
    b = bool_decide (fails = 0).
Proof.
  intros Htest Hrun.
  destruct (run_Ret_prologue _ _ _ _ Hrun) as [st1 Hpro].
  rewrite (run_prologue_step _ _ _ Hpro), Htest in Hrun. simpl in Hrun.
  destruct (run_prologue_Ret _ _ _ Hpro)
    as (ts & s0 & tr0 & Hparse & Hts & Htr0 & Hres0 & _).
  apply run_tests_part in Hrun
    as (s2 & fails & skips & s4 & -> & Htests & -> & ->); [|done].
  pose proof (run_tests_keeps _ _ _ _ Htests) as [Hi Hkeep].
  apply run_tests_counters in Htests
    as (segs & rs & Htr & Hres & _ & Hlr & _ & Hf & Hs & Hsum).
  simpl in Htr, Hlr, Hsum, Hi.
  change (tests (with_io (dut st1)
            (trace st1 ++
             [EvSysPathInsert
                (path_str (joinpath (project_path (ctx self))
                             "phoenix-rtos-tests"))]) st1))
    with (tests st1) in *.
  assert (length (tests s4) = length ts) as Hlen.
  { by rewrite !length_tests, Hi, <- length_tests, Hts. }
  rewrite Hts in Hlr, Hsum.
  exists ts, s0, (tr0 ++ [EvSysPathInsert
                            (path_str (joinpath (project_path (ctx self))
                                         "phoenix-rtos-tests"))] ++ concat segs).
  eexists _, _, fails, skips.
  assert (results_of
            (tr0 ++ [EvSysPathInsert
                       (path_str (joinpath (project_path (ctx self))
                                    "phoenix-rtos-tests"))] ++ concat segs) = rs)
    as Hall.
  { by rewrite !results_of_app, Hres0, Hres. }
  rewrite Hall. split_and!.
  - done.
  - reflexivity.
  - done.
  - intros j t Ht. rewrite <- Hts in Ht.
    change (tests (with_io (dut s4) _ s4)) with (tests s4).
    apply (tests_lookup_keeps st1 s4 j t); [done| |done].
    intros l. apply (Hkeep l).
  - simpl. rewrite Htr, Htr0, Hlen. rewrite <- !app_assoc. reflexivity.
  - done.
  - done.
  - done.
  - lia.
  - lia.
  - done.
Qed.

(** ** Errors before the tests *)

(** X3. If discovery raises, [run] raises the same exception in the state
    it was called in; if discovery succeeds and the parser raises, [run]
    raises the same exception, the descriptor list is not bound and nothing
    has been printed: in both cases the device is neither flashed nor
    tested. *)
Theorem discovery_or_parse_error_stops_run self st :
  (∀ e, search_for_tests self = Raise e → run self st = (Raise e, st)) ∧
  (∀ e st1,
     parse_tests self st = (Raise e, st1) →
     run self st = (Raise e, st1) ∧
     trace st1 = trace st ∧ tests st1 = tests st).
Proof.
  split.
  - intros e Hsearch. unfold run, parse_tests, pure_outcome.
    rewrite !bind_unfold. by rewrite Hsearch.
  - intros e st1 Hparse. split.
    + unfold run. by rewrite bind_unfold, Hparse.
    + apply parse_tests_inv in Hparse as [Htests Htrace]. by split.
Qed.

Lemma flash_failure self st m w :
  flash_dut (target (ctx self)) (dut st) = (Raise (FlashError m), w) ∨
  flash_dut (target (ctx self)) (dut st) = (Raise (HarnessError m), w) →
  flash self st =
    (Raise (SystemExit 1),
     with_io w
       (trace st ++
        [EvPrint "Flashing an image to device..."; EvFlashDut;
         EvPrint "ERROR WHILE FLASHING THE DEVICE"; EvPrint m]) st).
Proof.
  intros Hflash. unfold flash, extern, raise, with_io.
  unfold mbind, M_bind, bind, emit, mret, M_ret, ret. simpl.
  destruct Hflash as [-> | ->]; simpl; by rewrite <- !app_assoc.
Qed.

(** X4. If the tests are parsed, flashing is requested and [flash_dut]
    raises [FlashError] or [HarnessError], then [run] ends with
    [SystemExit(1)], whatever [should_test] is: the list holds the parsed
    descriptors, it has printed the banner and the message of the error,
    never [Done!], and no test has been built or called. *)
Theorem flash_failure_exits_before_tests self st ts st1 m w :
  parse_tests self st = (Ret ts, st1) →
  should_flash (ctx self) = true →
  flash_dut (target (ctx self)) (dut st1) = (Raise (FlashError m), w) ∨
  flash_dut (target (ctx self)) (dut st1) = (Raise (HarnessError m), w) →
  ∃ st',
    run self st = (Raise (SystemExit 1), st') ∧
    st' = with_io w
            (trace st ++
             [EvPrint "Flashing an image to device..."; EvFlashDut;
              EvPrint "ERROR WHILE FLASHING THE DEVICE"; EvPrint m])
            (bind_tests ts st1).2 ∧
    tests st' = ts ∧
    dut st' = w ∧
    trace st' = trace st ++
      [EvPrint "Flashing an image to device..."; EvFlashDut;
       EvPrint "ERROR WHILE FLASHING THE DEVICE"; EvPrint m].
Proof.
  intros Hparse Hflag Hflash.
  pose proof (parse_tests_inv _ _ _ _ Hparse) as [_ Htrace].
  unfold run. rewrite (bind_Ret_step _ _ _ _ _ Hparse).
  rewrite bind_unfold. unfold bind_tests at 1.
  rewrite bind_unfold, Hflag.
  rewrite (flash_failure self _ m w) by done.
  eexists. split; [reflexivity|]. simpl.
  split_and!; [by rewrite Htrace| |done|by rewrite Htrace].
  apply store_of_tests.
Qed.

(** ** How often the device is flashed *)

Lemma exec_test_no_flash c t st o st' :
  exec_test c t st = (o, st') →
  ∃ tr, trace st' = trace st ++ tr ∧ Forall (λ e, is_flash_event e = false) tr.
Proof.
  unfold exec_test, try_except_HarnessError, extern, raise.
  unfold mbind, M_bind, bind, emit, mret, M_ret, ret. simpl.
  intros Hrun.
  repeat (case_match; simplify_eq/=); rewrite <- ?app_assoc; simpl;
    eexists; (split; [reflexivity|]); by repeat constructor.
Qed.

Lemma run_tests_body_no_flash c idx cnt st o st' :
  run_tests_body c idx cnt st = (o, st') →
  ∃ tr, trace st' = trace st ++ tr ∧ Forall (λ e, is_flash_event e = false) tr.
Proof.
  unfold run_tests_body. intros Hrun.
  apply bind_inv in Hrun as [(e & Hget & _)|(test & s1 & Hget & Hrun)].
  { apply getitem_inv in Hget as ->. exists []. by rewrite app_nil_r. }
  apply getitem_inv in Hget as ->.
  apply bind_inv in Hrun as [(e & Hexec & _)|(result & s2 & Hexec & Hrun)].
  { by eapply exec_test_no_flash. }
  apply exec_test_no_flash in Hexec as (tr & Htr & Hnone).
  exists tr. split; [|done]. rewrite <- Htr.
  apply bind_inv in Hrun as [(e & Hset & _)|([] & s3 & Hset & Hrun)].
  - by apply set_reboot_flag_trace in Hset as (_ & _ & ?).
  - unfold mret, M_ret, ret in Hrun. simplify_eq.
    by apply set_reboot_flag_trace in Hset as (_ & _ & ?).
Qed.

Lemma run_tests_loop_no_flash c n idx cnt st o st' :
  run_tests_loop c n idx cnt st = (o, st') →
  ∃ tr, trace st' = trace st ++ tr ∧ Forall (λ e, is_flash_event e = false) tr.
Proof.
  revert idx cnt st. induction n as [|n IH]; intros idx cnt st Hrun; simpl in Hrun.
  { unfold mret, M_ret, ret in Hrun. simplify_eq. exists []. by rewrite app_nil_r. }
  apply bind_inv in Hrun as [(e & Hbody & _)|(cnt' & s1 & Hbody & Hrun)].
  - by eapply run_tests_body_no_flash.
  - apply run_tests_body_no_flash in Hbody as (tr1 & Htr1 & Hnone1).
    apply IH in Hrun as (tr2 & Htr2 & Hnone2).
    exists (tr1 ++ tr2). split; [by rewrite Htr2, Htr1, app_assoc|].
    by apply Forall_app.
Qed.

Lemma run_tests_no_flash c st o st' :
  run_tests c st = (o, st') →
  ∃ tr, trace st' = trace st ++ tr ∧ Forall (λ e, is_flash_event e = false) tr.
Proof.
  unfold run_tests. rewrite bind_unfold. unfold len_tests.
  apply run_tests_loop_no_flash.
Qed.

Lemma emit_inv e st (o : Outcome unit) st' :
  emit e st = (o, st') →
  o = Ret tt ∧ st' = with_io (dut st) (trace st ++ [e]) st.
Proof. unfold emit. intros Hx. by simplify_eq. Qed.

(** The part of [run] that runs the tests, however it ends: the path
    comes first, and the device is not flashed. *)
Lemma run_tests_part_trace self st1 (o : Outcome bool) st' :
  (_add_tests_module_to_syspath (project_path (ctx self));;
   r ← run_tests (ctx self);
   n ← len_tests;
   emit (EvSummary n (Z.of_nat n - Z.of_nat r.1 - Z.of_nat r.2) r.1 r.2);;
   mret (bool_decide (r.1 = 0))) st1 = (o, st') →
  ∃ tr,
    trace st' =
      trace st1 ++
      [EvSysPathInsert
         (path_str (joinpath (project_path (ctx self)) "phoenix-rtos-tests"))] ++
      tr ∧
    Forall (λ e, is_flash_event e = false) tr.
Proof.
  intros Hrun. unfold _add_tests_module_to_syspath in Hrun.
  apply bind_inv in Hrun as [(e & Hsys & _)|([] & s2 & Hsys & Hrun)].
  { by apply emit_inv in Hsys as [? _]. }
  apply emit_inv in Hsys as [_ ->].
  apply bind_inv in Hrun as [(e & Hl & _)|(r & s5 & Hl & Hrun)].
  { apply run_tests_no_flash in Hl as (tr & Htr & Hno). simpl in Htr.
    exists tr. split; [by rewrite Htr, <- app_assoc|done]. }
  apply run_tests_no_flash in Hl as (tr & Htr & Hno). simpl in Htr.
  apply bind_inv in Hrun as [(e & Hlen & _)|(n & s6 & Hlen & Hrun)].
  { unfold len_tests in Hlen. simplify_eq. }
  unfold len_tests in Hlen. simplify_eq.
  apply bind_inv in Hrun as [(e & Hsum & _)|([] & s7 & Hsum & Hrun)].
  { by apply emit_inv in Hsum as [? _]. }
  apply emit_inv in Hsum as [_ ->].
  unfold mret, M_ret, ret in Hrun. simplify_eq. simpl.
  eexists (tr ++ [_]). split; [by rewrite Htr, <- !app_assoc|].
  apply Forall_app. split; [done|by repeat constructor].
Qed.

Lemma flash_once self st o st' :
  flash self st = (o, st') →
  ∃ tr, trace st' = trace st ++ tr ∧
        length (filter (λ e, is_flash_event e = true) tr) = 1.
Proof.
  unfold flash, extern, raise.
  unfold mbind, M_bind, bind, emit, mret, M_ret, ret. simpl.
  intros Hrun.
  repeat (case_match; simplify_eq/=); rewrite <- ?app_assoc; simpl;
    eexists; (split; [reflexivity|]); done.
Qed.

Lemma no_flash_filter tr :
  Forall (λ e, is_flash_event e = false) tr →
  filter (λ e, is_flash_event e = true) tr = [].
Proof.
  induction 1 as [|e tr He _ IH]; [done|].
  rewrite filter_cons, IH. case_decide; [congruence|done].
Qed.

(** X5. Whatever [run] does and however it ends, it calls [flash_dut] at
    most once, and never when [should_flash] is false: the tests
    themselves never flash the device. *)
Theorem run_flashes_at_most_once self st o st' :
  run self st = (o, st') →
  ∃ tr,
    trace st' = trace st ++ tr ∧
    (length (filter (λ e, is_flash_event e = true) tr) ≤ 1)%nat ∧
    (should_flash (ctx self) = false →
     Forall (λ e, is_flash_event e = false) tr).
Proof.
  unfold run. intros Hrun.
  apply bind_inv in Hrun as [(e & Hparse & _)|(ts & s1 & Hparse & Hrun)].
  { apply parse_tests_inv in Hparse as [_ Htr]. exists [].
    rewrite app_nil_r. split_and!; [done|simpl; lia|done]. }
  apply parse_tests_inv in Hparse as [_ Htr1].
  apply bind_inv in Hrun as [(e & Hbind & _)|([] & s2 & Hbind & Hrun)].
  { by apply bind_tests_tests in Hbind as [? _]. }
  apply bind_tests_tests in Hbind as (_ & _ & _ & Htr2).
  assert (Hflash : ∀ o2 s3,
    (if should_flash (ctx self) then flash self else mret ()) s2 = (o2, s3) →
    ∃ tr, trace s3 = trace st ++ tr ∧
          (length (filter (λ e, is_flash_event e = true) tr) ≤ 1)%nat ∧
          (should_flash (ctx self) = false → tr = [])).
  { intros o2 s3 Hf. destruct (should_flash (ctx self)).
    - apply flash_once in Hf as (tr & Htr & Hone).
      exists tr. rewrite <- Htr1, <- Htr2. split_and!; [done|lia|done].
    - unfold mret, M_ret, ret in Hf. simplify_eq. exists [].
      rewrite app_nil_r. split_and!; [congruence|simpl; lia|done]. }
  apply bind_inv in Hrun as [(e & Hf & _)|([] & s3 & Hf & Hrun)].
  { apply Hflash in Hf as (tr & Htr & Hone & Hnone). exists tr.
    split_and!; try done. intros ->%Hnone. constructor. }
  apply Hflash in Hf as (tr0 & Htr0 & Hone & Hnone). clear Hflash.
  assert (Hrest : ∃ tr, trace st' = trace s3 ++ tr ∧
                        Forall (λ e, is_flash_event e = false) tr).
  { destruct (should_test (ctx self)); simpl in Hrun.
    - apply run_tests_part_trace in Hrun as (tr & Htr & Hno).
      eexists. split; [exact Htr|].
      apply Forall_app. split; [by repeat constructor|done].
    - unfold mret, M_ret, ret in Hrun. simplify_eq. exists [].
      by rewrite app_nil_r. }
  destruct Hrest as (tr & Htr & Hno).
  exists (tr0 ++ tr). split_and!.
  - by rewrite Htr, Htr0, app_assoc.
  - rewrite filter_app, length_app, (no_flash_filter tr Hno). simpl. lia.
  - intros ->%Hnone. done.
Qed.

(** ** The flags over several iterations *)

Lemma run_tests_body_Ret_flag c idx cnt st cnt' st' l1 :
  run_tests_body c idx cnt st = (Ret cnt', st') →
  items st !! (idx + 1) = Some l1 →
  ∃ l0 result s1,
    items st !! idx = Some l0 ∧
    exec_test c (objects st l0) st = (Ret result, s1) ∧
    cnt' = count result cnt ∧
    flag_set l1 (flag_written c result (bool_decide (l0 = l1))
                   (objects st l0) (objects st l1)) s1 st'.
Proof.
  intros Hrun Hnxt.
  destruct (lookup_lt_is_Some_2 (items st) idx) as [l0 Hcur].
  { apply lookup_lt_Some in Hnxt. lia. }
  pose proof Hrun as Hrun'. unfold run_tests_body in Hrun'.
  rewrite (bind_Ret_step _ _ _ _ _
             (getitem_Some _ _ _ (tests_lookup_item _ _ _ Hcur))) in Hrun'.
  apply bind_Ret_inv in Hrun' as (result & s1 & Hexec & _).
  destruct (run_tests_body_next c idx cnt st l0 l1 result s1 Hcur Hnxt Hexec)
    as (s2 & Hbody & Hflag).
  rewrite Hbody in Hrun. exists l0, result, s1. by simplify_eq.
Qed.

(** In nightly mode an iteration only ever writes True. *)
Lemma run_tests_body_nightly c idx cnt st cnt' st' :
  nightly c = true →
  run_tests_body c idx cnt st = (Ret cnt', st') →
  (∀ l, should_reboot (objects st l) = true →
        should_reboot (objects st' l) = true) ∧
  (∀ l, items st !! (idx + 1) = Some l → should_reboot (objects st' l) = true).
Proof.
  intros Hnight Hrun.
  destruct (items st !! (idx + 1)) as [l1|] eqn:Hnxt.
  - destruct (run_tests_body_Ret_flag _ _ _ _ _ _ _ Hrun Hnxt)
      as (l0 & result & s1 & _ & Hexec & _ & (_ & _ & _ & Ho)).
    apply exec_test_items in Hexec as [_ Hobjs].
    assert (flag_written c result (bool_decide (l0 = l1))
              (objects st l0) (objects st l1) = true) as Hw.
    { unfold flag_written. by rewrite Hnight, orb_true_r. }
    rewrite Hw, Hobjs in Ho. split.
    + intros l Hl. rewrite Ho. by destruct (decide (l = l1)).
    + intros l [= <-]. rewrite Ho. by rewrite decide_True.
  - apply run_tests_body_keeps in Hrun as (_ & Ho & _). split; [|done].
    intros l Hl. by rewrite Ho by (by rewrite Hnxt).
Qed.

Lemma run_tests_loop_nightly c n idx cnt st cnt' st' :
  nightly c = true →
  run_tests_loop c n idx cnt st = (Ret cnt', st') →
  (∀ l, should_reboot (objects st l) = true →
        should_reboot (objects st' l) = true) ∧
  (∀ j l, idx < j → (j ≤ idx + n)%nat → items st !! j = Some l →
          should_reboot (objects st' l) = true).
Proof.
  intros Hnight. revert idx cnt st.
  induction n as [|n IH]; intros idx cnt st Hrun; simpl in Hrun.
  { unfold mret, M_ret, ret in Hrun. simplify_eq. split; [done|]. lia. }
  apply bind_Ret_inv in Hrun as (cnt1 & s1 & Hbody & Hrun).
  pose proof (run_tests_body_keeps _ _ _ _ _ _ Hbody) as (Hi1 & _ & _).
  apply (run_tests_body_nightly _ _ _ _ _ _ Hnight) in Hbody as [Hkeep1 Hnext].
  apply IH in Hrun as [Hkeep2 Hlater]. split.
  - intros l Hl. by apply Hkeep2, Hkeep1.
  - intros j l Hj1 Hj2 Hl. destruct (decide (j = idx + 1)) as [->|Hne].
    + by apply Hkeep2, Hnext.
    + apply (Hlater j); [lia|lia|by rewrite Hi1].
Qed.

(** X6. In nightly mode, when [run_tests] returns, every descriptor but the
    first has [should_reboot] set to True, whatever the results were. *)
Theorem nightly_reboots_before_every_test c st cnt st' :
  nightly c = true →
  run_tests c st = (Ret cnt, st') →
  length (tests st') = length (tests st) ∧
  ∀ j t, 0 < j → tests st' !! j = Some t → should_reboot t = true.
Proof.
  intros Hnight Hrun. unfold run_tests in Hrun.
  rewrite bind_unfold in Hrun. unfold len_tests in Hrun. split.
  - by eapply run_tests_loop_length.
  - intros j t Hj (l & Hl & <-)%tests_lookup.
    pose proof (run_tests_loop_frame _ _ _ _ _ _ _ Hrun) as (Hi & _).
    apply (run_tests_loop_nightly _ _ _ _ _ _ _ Hnight) in Hrun as [_ Hlater].
    rewrite Hi in Hl. apply (Hlater j); [lia| |done].
    apply lookup_lt_Some in Hl. rewrite length_tests. lia.
Qed.

(** X7. The descriptor that the next iteration hands to [build_test] is
    [tests[idx + 1]] as the iteration of test [idx] left it: when test
    [idx] has failed or the mode is nightly, the harness of a test that is
    not ignored is built from a descriptor whose [should_reboot] is
    True. *)
Theorem next_harness_is_built_with_the_flag c idx cnt st test nxt result st1 :
  tests st !! idx = Some test →
  tests st !! (idx + 1) = Some nxt →
  exec_test c test st = (Ret result, st1) →
  is_fail result || nightly c = true →
  ignore nxt = false →
  ∃ st2,
    run_tests_body c idx cnt st = (Ret (count result cnt), st2) ∧
    tests st2 !! (idx + 1) = Some (with_should_reboot true nxt) ∧
    ∀ cnt2 o st3,
      run_tests_body c (idx + 1) cnt2 st2 = (o, st3) →
      ∃ tr, trace st3 =
              trace st2 ++
              [EvPrintName (name nxt);
               EvBuildTest (with_should_reboot true nxt)] ++ tr.
Proof.
  intros Htest Hnxt Hexec Hflag Hign.
  destruct (flag_after_iteration c idx cnt st test nxt result st1)
    as (st2 & same & Hbody & Hlook & _); [done..|].
  assert (flag_written c result same test nxt = true) as Hw.
  { unfold flag_written. by rewrite Hflag. }
  rewrite Hw in Hlook.
  exists st2. split_and!.
  - done.
  - done.
  - intros cnt2 o st3 Hrun. unfold run_tests_body in Hrun.
    rewrite (bind_Ret_step _ _ _ _ _ (getitem_Some _ _ _ Hlook)) in Hrun.
    apply bind_inv in Hrun as [(e & Hex & _)|(r2 & s2 & Hex & Hrun)].
    + revert Hex.
      unfold exec_test, try_except_HarnessError, extern, raise.
      unfold mbind, M_bind, bind, emit, mret, M_ret, ret. simpl.
      rewrite Hign. intros Hex.
      repeat (case_match; simplify_eq/=); rewrite <- ?app_assoc; simpl;
        by eexists.
    + assert (trace st3 = trace s2) as ->.
      { apply bind_inv in Hrun as [(e & Hset & _)|([] & s3 & Hset & Hrun)].
        - by apply set_reboot_flag_trace in Hset as (_ & _ & ?).
        - unfold mret, M_ret, ret in Hrun. simplify_eq.
          by apply set_reboot_flag_trace in Hset as (_ & _ & ?). }
      revert Hex.
      unfold exec_test, try_except_HarnessError, extern, raise.
      unfold mbind, M_bind, bind, emit, mret, M_ret, ret. simpl.
      rewrite Hign. intros Hex.
      repeat (case_match; simplify_eq/=); rewrite <- ?app_assoc; simpl;
        by eexists.
Qed.

(** ** Campaigns of ignored tests *)

Lemma tests_lookup_keeps_rev st st' j t' :
  items st' = items st →
  (∀ l, ∃ v, objects st' l = with_should_reboot v (objects st l)) →
  tests st' !! j = Some t' →
  ∃ t v, tests st !! j = Some t ∧ t' = with_should_reboot v t.
Proof.
  intros Hi Ho (l & Hj & <-)%tests_lookup. destruct (Ho l) as [v Hv].
  exists (objects st l), v. split; [|done].
  apply tests_lookup_item. by rewrite <- Hi.
Qed.

Lemma run_tests_body_ignored c idx cnt st test :
  tests st !! idx = Some test →
  ignore test = true →
  ∃ st',
    run_tests_body c idx cnt st = (Ret (cnt.1, cnt.2 + 1), st') ∧
    dut st' = dut st ∧
    trace st' = trace st ++
      [EvPrintName (name test);
       EvPrintResult (skip (new_TestResult (name test)))] ∧
    items st' = items st.
Proof.
  intros Hidx Hign.
  pose proof (exec_test_ignored c test st Hign) as Hexec.
  destruct (run_tests_body_Ret c idx cnt st test _ _ Hidx Hexec)
    as (st' & Hbody & Hdut & Htrace & Hlen).
  by exists st'.
Qed.

Lemma run_tests_loop_all_ignored c n idx cnt st :
  idx + n = length (tests st) →
  Forall (λ t, ignore t = true) (tests st) →
  ∃ st' tr,
    run_tests_loop c n idx cnt st = (Ret (cnt.1, cnt.2 + n), st') ∧
    dut st' = dut st ∧
    trace st' = trace st ++ tr ∧
    Forall (λ e, is_exec_event e = false) tr.
Proof.
  revert idx cnt st. induction n as [|n IH]; intros idx cnt st Hlen Hall.
  { exists st, []. simpl. rewrite app_nil_r, Nat.add_0_r.
    by destruct cnt. }
  destruct (lookup_lt_is_Some_2 (tests st) idx) as [test Htest]; [lia|].
  assert (ignore test = true) as Hign.
  { exact (Forall_lookup_1 _ _ _ _ Hall Htest). }
  destruct (run_tests_body_ignored c idx cnt st test Htest Hign)
    as (s1 & Hbody & Hdut1 & Htr1 & Hi1).
  assert (Forall (λ t, ignore t = true) (tests s1)) as Hall1.
  { apply Forall_lookup. intros j t' Hj.
    pose proof (run_tests_body_keeps _ _ _ _ _ _ Hbody) as (_ & _ & Hf).
    destruct (tests_lookup_keeps_rev st s1 j t' Hi1 Hf Hj) as (t & v & Ht & ->).
    exact (Forall_lookup_1 _ _ _ _ Hall Ht). }
  destruct (IH (S idx) (cnt.1, cnt.2 + 1) s1) as (st' & tr & Hloop & Hdut & Htr & Hno);
    [rewrite length_tests, Hi1, <- length_tests; lia|done|].
  exists st', ([EvPrintName (name test);
                EvPrintResult (skip (new_TestResult (name test)))] ++ tr).
  rewrite (run_tests_loop_step _ _ _ _ _ _ _ Hbody), Hloop. simpl.
  split_and!.
  - by replace (cnt.2 + S n) with (cnt.2 + 1 + n) by lia.
  - by rewrite Hdut.
  - by rewrite Htr, Htr1, <- app_assoc.
  - by repeat constructor.
Qed.

(** X8. When every descriptor is ignored, [run_tests] returns no failure
    and as many skips as there are descriptors; it never calls
    [build_test] or a harness and leaves the device as it was. *)
Theorem all_ignored_campaign c st :
  Forall (λ t, ignore t = true) (tests st) →
  ∃ st' tr,
    run_tests c st = (Ret (0, length (tests st)), st') ∧
    dut st' = dut st ∧
    trace st' = trace st ++ tr ∧
    Forall (λ e, is_exec_event e = false) tr.
Proof.
  intros Hall.
  destruct (run_tests_loop_all_ignored c (length (tests st)) 0 (0, 0) st)
    as (st' & tr & Hloop & Hdut & Htr & Hno); [done..|].
  exists st', tr. by split_and!.
Qed.

(** The flag [v] that the descriptors from [lo] to [idx] have is carried
    over [k] ignored tests, when each of them and its successor are
    distinct objects. *)
Lemma run_tests_loop_carries c k lo idx cnt st v :
  nightly c = false →
  (lo ≤ idx)%nat →
  idx + k < length (tests st) →
  (∀ j, (idx ≤ j)%nat → j < idx + k → ¬ same_object st j (j + 1)) →
  (∀ j t, (idx ≤ j)%nat → j < idx + k →
          tests st !! j = Some t → ignore t = true) →
  (∀ j t, idx < j → (j ≤ idx + k)%nat →
          tests st !! j = Some t → requires_bootloader_apps t = false) →
  (∀ j t, (lo ≤ j)%nat → (j ≤ idx)%nat →
          tests st !! j = Some t → should_reboot t = v) →
  ∃ st',
    run_tests_loop c k idx cnt st = (Ret (cnt.1, cnt.2 + k), st') ∧
    dut st' = dut st ∧
    items st' = items st ∧
    ∀ j t, (lo ≤ j)%nat → (j ≤ idx + k)%nat →
           tests st' !! j = Some t → should_reboot t = v.
Proof.
  intros Hnight. revert idx cnt st.
  induction k as [|k IH]; intros idx cnt st Hlo Hlen Hdiff Hign Happs Hflag.
  { exists st. simpl. split_and!; try done.
    - rewrite Nat.add_0_r. by destruct cnt.
    - intros j t Hj1 Hj2. apply Hflag; lia. }
  rewrite length_tests in Hlen.
  destruct (lookup_lt_is_Some_2 (items st) idx) as [l0 Hcur]; [lia|].
  destruct (lookup_lt_is_Some_2 (items st) (idx + 1)) as [l1 Hnxt]; [lia|].
  pose proof (tests_lookup_item _ _ _ Hcur) as Htest.
  pose proof (tests_lookup_item _ _ _ Hnxt) as Hnext.
  assert (l0 ≠ l1) as Hne.
  { intros ->. apply (Hdiff idx); [lia..|].
    unfold same_object. by rewrite Hcur, Hnxt. }
  assert (ignore (objects st l0) = true) as Htign
    by (eapply (Hign idx); [lia..|done]).
  assert (requires_bootloader_apps (objects st l1) = false) as Hnapps
    by (eapply (Happs (idx + 1)); [lia..|done]).
  assert (should_reboot (objects st l0) = v) as Hv
    by (eapply (Hflag idx); [lia..|done]).
  pose proof (exec_test_ignored c (objects st l0) st Htign) as Hexec.
  destruct (run_tests_body_next c idx cnt st l0 l1 _ _ Hcur Hnxt Hexec)
    as (s1 & Hbody & Hset).
  assert (flag_written c (skip (new_TestResult (name (objects st l0))))
            (bool_decide (l0 = l1)) (objects st l0) (objects st l1) = v) as Hw.
  { unfold flag_written. simpl. rewrite Hnight, Hnapps. simpl.
    by rewrite bool_decide_eq_false_2. }
  rewrite Hw in Hset.
  pose proof Hset as (Hi1 & Hd1 & _ & Ho1). simpl in Hi1, Hd1, Ho1.
  assert (∀ l, ∃ v', objects s1 l = with_should_reboot v' (objects st l)) as Hf1.
  { intros l. rewrite Ho1. destruct (decide (l = l1)) as [->|?].
    - by eexists.
    - exists (should_reboot (objects st l)). by rewrite with_should_reboot_id. }
  destruct (IH (S idx) (count (skip (new_TestResult (name (objects st l0)))) cnt) s1)
    as (st' & Hloop & Hdut & Hitems & Hflags).
  { lia. }
  { rewrite length_tests, Hi1. lia. }
  { intros j Hj1 Hj2. unfold same_object. rewrite Hi1. apply Hdiff; lia. }
  { intros j t' Hj1 Hj2 Hj.
    destruct (tests_lookup_keeps_rev st s1 j t' Hi1 Hf1 Hj) as (t & v' & Ht & ->).
    simpl. apply (Hign j); [lia..|done]. }
  { intros j t' Hj1 Hj2 Hj.
    destruct (tests_lookup_keeps_rev st s1 j t' Hi1 Hf1 Hj) as (t & v' & Ht & ->).
    rewrite requires_bootloader_apps_with_should_reboot.
    apply (Happs j); [lia..|done]. }
  { intros j t' Hj1 Hj2 (l & Hl & <-)%tests_lookup. rewrite Hi1 in Hl.
    rewrite Ho1. destruct (decide (l = l1)) as [->|Hl1]; [done|].
    apply (Hflag j); [lia| |by apply tests_lookup_item].
    destruct (decide (j = idx + 1)) as [->|?]; [|lia].
    rewrite Hnxt in Hl. by simplify_eq. }
  exists st'. rewrite (run_tests_loop_step _ _ _ _ _ _ _ Hbody), Hloop.
  split_and!.
  - by replace (cnt.2 + S k) with (cnt.2 + 1 + k) by lia.
  - by rewrite Hdut, Hd1.
  - by rewrite Hitems.
  - intros j t Hj1 Hj2. apply Hflags; lia.
Qed.

(** X9. Outside nightly mode, [k] consecutive ignored tests starting at
    index [idx], each of which is another object than its successor,
    followed by descriptors without bootloader apps, carry the flag of
    [tests[idx]] forward: after these [k] iterations the descriptors at
    the indices [idx] to [idx + k] all have the [should_reboot] that
    [tests[idx]] had; the [k] tests are counted as skipped and the device
    is left as it was. *)
Theorem flag_carried_over_ignored_tests c k idx cnt st :
  nightly c = false →
  idx + k < length (tests st) →
  (∀ j, (idx ≤ j)%nat → j < idx + k → ¬ same_object st j (j + 1)) →
  (∀ j t, (idx ≤ j)%nat → j < idx + k →
          tests st !! j = Some t → ignore t = true) →
  (∀ j t, idx < j → (j ≤ idx + k)%nat →
          tests st !! j = Some t → requires_bootloader_apps t = false) →
  ∃ st',
    run_tests_loop c k idx cnt st = (Ret (cnt.1, cnt.2 + k), st') ∧
    dut st' = dut st ∧
    ∀ j, (idx ≤ j)%nat → (j ≤ idx + k)%nat →
         should_reboot <$> tests st' !! j = should_reboot <$> tests st !! idx.
Proof.
  intros Hnight Hlen Hdiff Hign Happs.
  destruct (lookup_lt_is_Some_2 (tests st) idx) as [test Htest]; [lia|].
  destruct (run_tests_loop_carries c k idx idx cnt st (should_reboot test))
    as (st' & Hloop & Hdut & Hitems & Hflags); try done.
  { intros j t Hj1 Hj2 Hj. replace j with idx in Hj by lia. by simplify_eq. }
  exists st'. split_and!; [done..|].
  intros j Hj1 Hj2. rewrite Htest. simpl.
  destruct (lookup_lt_is_Some_2 (tests st') j) as [t Ht].
  { rewrite length_tests, Hitems, <- length_tests. lia. }
  rewrite Ht. simpl. f_equal. by apply (Hflags j).
Qed.

(** ** What the isolation of a test does not cover *)

Lemma run_tests_loop_Raise c k idx cnt st e st' :
  run_tests_body c idx cnt st = (Raise e, st') →
  run_tests_loop c (S k) idx cnt st = (Raise e, st').
Proof. intros Hbody. simpl. by rewrite bind_unfold, Hbody. Qed.

Lemma run_tests_body_exec_Raise c idx cnt st test e st' :
  tests st !! idx = Some test →
  exec_test c test st = (Raise e, st') →
  run_tests_body c idx cnt st = (Raise e, st').
Proof.
  intros Hidx Hexec. unfold run_tests_body.
  rewrite (bind_Ret_step _ _ _ _ _ (getitem_Some _ _ _ Hidx)).
  by rewrite bind_unfold, Hexec.
Qed.

(** X10. Only a [HarnessError] raised by the call of the harness is turned
    into a FAIL result.  If [build_test] returns [None], the iteration
    raises [AssertionError]; if [build_test] raises, be it
    [HarnessError], or if the harness raises another exception, the
    iteration raises that exception.  In each case no result is printed
    for the test, the store and the list are as they were, so that the
    flag of the next descriptor is not updated, and the loop stops there:
    the tests that follow are not run. *)
Theorem only_harness_errors_are_isolated c idx cnt st test :
  tests st !! idx = Some test →
  ignore test = false →
  (∀ w,
     build_test (target c) test (dut st) = (Ret None, w) →
     ∀ k, run_tests_loop c (S k) idx cnt st =
          (Raise (AssertionError ""),
           with_io w
             (trace st ++ [EvPrintName (name test); EvBuildTest test]) st)) ∧
  (∀ e w,
     build_test (target c) test (dut st) = (Raise e, w) →
     ∀ k, run_tests_loop c (S k) idx cnt st =
          (Raise e,
           with_io w
             (trace st ++ [EvPrintName (name test); EvBuildTest test]) st)) ∧
  (∀ h w1 e w2,
     build_test (target c) test (dut st) = (Ret (Some h), w1) →
     h w1 = (Raise e, w2) →
     (∀ m, e ≠ HarnessError m) →
     ∀ k, run_tests_loop c (S k) idx cnt st =
          (Raise e,
           with_io w2
             (trace st ++
              [EvPrintName (name test); EvBuildTest test;
               EvHarnessCall test]) st)).
Proof.
  intros Hidx Hign. split_and!.
  - intros w Hbuild k. apply run_tests_loop_Raise.
    apply (run_tests_body_exec_Raise _ _ _ _ test); [done|].
    unfold exec_test, extern, raise, with_io. rewrite Hign.
    unfold mbind, M_bind, bind, emit, mret, M_ret, ret. simpl.
    rewrite Hbuild. simpl. by rewrite <- !app_assoc.
  - intros e w Hbuild k. apply run_tests_loop_Raise.
    apply (run_tests_body_exec_Raise _ _ _ _ test); [done|].
    unfold exec_test, extern, raise, with_io. rewrite Hign.
    unfold mbind, M_bind, bind, emit, mret, M_ret, ret. simpl.
    rewrite Hbuild. simpl. by rewrite <- !app_assoc.
  - intros h w1 e w2 Hbuild Hcall Hother k. apply run_tests_loop_Raise.
    apply (run_tests_body_exec_Raise _ _ _ _ test); [done|].
    unfold exec_test, try_except_HarnessError, extern, raise, with_io.
    rewrite Hign.
    unfold mbind, M_bind, bind, emit, mret, M_ret, ret. simpl.
    rewrite Hbuild. simpl. rewrite Hcall. simpl.
    destruct e as [m|  |m|m|m|code|m]; try (by rewrite <- !app_assoc).
    by destruct (Hother m).
Qed.



(** ** More on discovery and parsing *)

Lemma search_for_tests_loop_app (pre rest acc : list Path) :
  (∀ q, q ∈ pre → ¬ rejected_path q) →
  search_for_tests_loop (pre ++ rest) acc =
  search_for_tests_loop rest (acc ++ concat (found_by <$> pre)).
Proof.
  revert acc. induction pre as [|q pre IH]; intros acc Hgood; simpl.
  { by rewrite app_nil_r. }
  destruct (yamls_of_cases q) as [[Hbad _]|[_ ->]].
  { destruct (Hgood q); [by left|done]. }
  rewrite IH by (intros q' Hq'; apply Hgood; by right).
  by rewrite app_assoc.
Qed.

Lemma yamls_of_rejected (p : Path) :
  rejected_path p →
  yamls_of p =
    Raise (ValueError
      (if is_dir p
       then path_str p +:+ " does not contain .yaml test configuration"
       else if is_file p
       then "Test configuration must be a file with .yaml or .yml extension"
       else "Test configuration " +:+ path_str p +:+
            " is neither a directory nor a file.")).
Proof.
  unfold yamls_of. intros [[Hdir Hnone]|[(Hfile & H1 & H2)|[Hdir Hfile]]].
  - by rewrite Hdir, Hnone.
  - rewrite (is_file_not_dir p Hfile), Hfile.
    by rewrite !bool_decide_eq_true_2.
  - by rewrite Hdir, Hfile.
Qed.

(** X12. The error of [search_for_tests] is the one of the first entry of
    [test_paths] that is rejected, and its message says why: the entries
    behind it are not looked at, and nothing of what was found before it
    is returned. *)
Theorem search_for_tests_reports_first_rejected c (pre post : list Path) p :
  (∀ q, q ∈ pre → ¬ rejected_path q) →
  rejected_path p →
  search_for_tests {| ctx := c; test_paths := pre ++ p :: post |} =
    Raise (ValueError
      (if is_dir p
       then path_str p +:+ " does not contain .yaml test configuration"
       else if is_file p
       then "Test configuration must be a file with .yaml or .yml extension"
       else "Test configuration " +:+ path_str p +:+
            " is neither a directory nor a file.")).
Proof.
  intros Hgood Hbad. unfold search_for_tests. simpl.
  rewrite search_for_tests_loop_app by done. simpl.
  by rewrite (yamls_of_rejected p Hbad).
Qed.

Lemma parse_tests_loop_pure c (f : Path → list TestOptions) ys acc st :
  (∀ p w, p ∈ ys → parse c p w = (Ret (f p), w)) →
  parse_tests_loop c ys acc st = (Ret (acc ++ concat (f <$> ys)), st).
Proof.
  revert acc. induction ys as [|y ys IH]; intros acc Hpure; simpl.
  { by rewrite app_nil_r. }
  rewrite bind_unfold. unfold extern. rewrite (Hpure y (dut st)) by left.
  destruct st as [objs its w tr]. simpl.
  rewrite IH by (intros p w' Hp; apply Hpure; by right).
  by rewrite app_assoc.
Qed.

(** X13. When discovery succeeds and the parser returns the descriptors
    of each discovered file without touching the device, [parse_tests]
    returns the descriptors of all the files, file after file in the order
    of discovery, and leaves the state as it was. *)
Theorem parse_tests_in_discovery_order self st yamls
    (f : Path → list TestOptions) :
  search_for_tests self = Ret yamls →
  (∀ p w, p ∈ yamls → parse (ctx self) p w = (Ret (f p), w)) →
  parse_tests self st = (Ret (concat (f <$> yamls)), st).
Proof.
  intros Hsearch Hpure. unfold parse_tests, pure_outcome.
  rewrite bind_unfold, Hsearch.
  by rewrite (parse_tests_loop_pure _ f).
Qed.

(** ** The rest of an iteration and of the campaign *)

(** X16. A result that the harness returns is printed and counted by its
    status, whether or not the test was ignored: FAIL adds one to the fail
    counter, SKIP one to the skip counter, OK leaves both as they are.
    A harness that returns [None] counts as passed: the result printed is
    OK, under the name of the descriptor. *)
Theorem harness_result_is_counted_by_status c idx cnt st test h w1 res w2 :
  tests st !! idx = Some test →
  ignore test = false →
  build_test (target c) test (dut st) = (Ret (Some h), w1) →
  h w1 = (Ret res, w2) →
  ∃ st' r,
    r = default (mkTestResult (name test) OK "") res ∧
    run_tests_body c idx cnt st = (Ret (count r cnt), st') ∧
    dut st' = w2 ∧
    trace st' = trace st ++
      [EvPrintName (name test); EvBuildTest test; EvHarnessCall test;
       EvPrintResult r] ∧
    (status r = FAIL → count r cnt = (cnt.1 + 1, cnt.2)) ∧
    (status r = SKIP → count r cnt = (cnt.1, cnt.2 + 1)) ∧
    (status r = OK → count r cnt = cnt) ∧
    (res = None → r = mkTestResult (name test) OK "" ∧ count r cnt = cnt).
Proof.
  intros Hidx Hign Hbuild Hcall.
  pose proof (exec_test_returns c test st h w1 res w2 Hign Hbuild Hcall) as Hexec.
  destruct (run_tests_body_Ret c idx cnt st test _ _ Hidx Hexec)
    as (st' & Hbody & Hdut & Htrace & _).
  exists st', (default (mkTestResult (name test) OK "") res).
  split_and!; try done.
  - intros Hs. unfold count, is_fail. by rewrite Hs.
  - intros Hs. unfold count, is_fail, is_skip. by rewrite Hs.
  - intros Hs. unfold count, is_fail, is_skip. by rewrite Hs.
  - by intros ->.
Qed.

(** X17. However [run_tests] ends, the descriptor list has the same
    length as before and every descriptor has kept its name, its [ignore]
    flag, its bootloader options and its other fields: [should_reboot] is
    the only field that the runner ever writes. *)
Theorem run_tests_keeps_the_descriptors c st o st' :
  run_tests c st = (o, st') →
  length (tests st') = length (tests st) ∧
  ∀ j t, tests st !! j = Some t →
    ∃ t', tests st' !! j = Some t' ∧
          name t' = name t ∧ ignore t' = ignore t ∧
          bootloader t' = bootloader t ∧ extra t' = extra t.
Proof.
  intros [Hi Hkeep]%run_tests_keeps. split.
  - by rewrite !length_tests, Hi.
  - intros j t Ht.
    destruct (tests_lookup_keeps st st' j t Hi Hkeep Ht) as [v Hv].
    by exists (with_should_reboot v t).
Qed.

(** X18. When tests are to be run, the path of the tests module is put
    on [sys.path] right after the prologue of [run], before anything is
    built or called; when [should_test] is false, [sys.path] is left
    alone. *)
Theorem syspath_is_extended_before_the_tests self st st1 o st' :
  run_prologue self st = (Ret tt, st1) →
  run self st = (o, st') →
  Forall (λ e, is_exec_event e = false) (drop (length (trace st)) (trace st1)) ∧
  (should_test (ctx self) = true →
   ∃ tr, trace st' =
           trace st1 ++
           [EvSysPathInsert
              (path_str (joinpath (project_path (ctx self))
                           "phoenix-rtos-tests"))] ++ tr) ∧
  (should_test (ctx self) = false → st' = st1).
Proof.
  intros Hpro Hrun.
  rewrite (run_prologue_step _ _ _ Hpro) in Hrun.
  destruct (run_prologue_Ret _ _ _ Hpro)
    as (ts & s0 & tr0 & _ & _ & Htr0 & _ & Hexec0).
  split_and!.
  - by rewrite Htr0, drop_app_length.
  - intros Htest. rewrite Htest in Hrun. simpl in Hrun.
    apply run_tests_part_trace in Hrun as (tr & Htr & _). by exists tr.
  - intros Htest. rewrite Htest in Hrun. simpl in Hrun.
    unfold mret, M_ret, ret in Hrun. by simplify_eq.
Qed.
End RunnerMore.

(** * Further properties of the login helpers *)

Section LoginMore.
Context {Session : Type} `{!Spawn Session}.
Implicit Types (d : Dialogue Session) (login passwd : string).
Implicit Types (check check_fail : string → Z → M (Dialogue Session) unit).

Lemma log_in_unmatched login passwd d :
  (∀ i s1,
     spawn_expect_exact [Exact login; TIMEOUT]
       (spawn_send (login +:+ newline) (session d)) = (Ret i, s1) →
     i ≠ 0 →
     log_in login passwd d =
       (Raise (AssertionError "Cannot enter login to login prompt"),
        {| session := s1; sent := sent d ++ [login +:+ newline] |})) ∧
  (∀ s1 j s2,
     spawn_expect_exact [Exact login; TIMEOUT]
       (spawn_send (login +:+ newline) (session d)) = (Ret 0, s1) →
     spawn_expect_exact [Exact "Password:"; TIMEOUT] s1 = (Ret j, s2) →
     j ≠ 0 →
     log_in login passwd d =
       (Raise (AssertionError ""),
        {| session := s2; sent := sent d ++ [login +:+ newline] |})).
Proof.
  unfold log_in, send, expect_exact, py_assert, raise.
  unfold mbind, M_bind, bind, mret, M_ret, ret. simpl. split.
  - intros i s1 -> Hi. simpl. by rewrite bool_decide_eq_false_2.
  - intros s1 j s2 -> H2 Hj. simpl. rewrite H2. simpl.
    by rewrite bool_decide_eq_false_2.
Qed.

Lemma log_in_matched login passwd d s1 s2 :
  spawn_expect_exact [Exact login; TIMEOUT]
    (spawn_send (login +:+ newline) (session d)) = (Ret 0, s1) →
  spawn_expect_exact [Exact "Password:"; TIMEOUT] s1 = (Ret 0, s2) →
  log_in login passwd d =
    (Ret tt,
     {| session := spawn_send (passwd +:+ newline) s2;
        sent := sent d ++ [login +:+ newline; passwd +:+ newline] |}).
Proof.
  unfold log_in, send, expect_exact, py_assert, raise.
  unfold mbind, M_bind, bind, mret, M_ret, ret. simpl.
  intros -> H2. simpl. rewrite H2. simpl. by rewrite <- app_assoc.
Qed.

(** X14. [assert_login_empty] sends the login line and nothing else,
    however it ends.  It returns when [Login:] is matched, and raises
    [AssertionError] with the message of its assertion when the call of
    [expect_exact] returns another index. *)
Theorem assert_login_empty_dialogue login d :
  (∀ s1,
     spawn_expect_exact [Exact "Login:"; TIMEOUT]
       (spawn_send (login +:+ newline) (session d)) = (Ret 0, s1) →
     assert_login_empty login d =
       (Ret tt, {| session := s1; sent := sent d ++ [login +:+ newline] |})) ∧
  (∀ i s1,
     spawn_expect_exact [Exact "Login:"; TIMEOUT]
       (spawn_send (login +:+ newline) (session d)) = (Ret i, s1) →
     i ≠ 0 →
     assert_login_empty login d =
       (Raise (AssertionError "Empty login doesn`t repeat logging"),
        {| session := s1; sent := sent d ++ [login +:+ newline] |})) ∧
  (∀ o d',
     assert_login_empty login d = (o, d') →
     sent d' = sent d ++ [login +:+ newline]).
Proof.
  unfold assert_login_empty, send, expect_exact, py_assert, raise.
  unfold mbind, M_bind, bind, mret, M_ret, ret. simpl.
  split_and!.
  - by intros s1 ->.
  - intros i s1 -> Hi. simpl. by rewrite bool_decide_eq_false_2.
  - intros o d'.
    destruct (spawn_expect_exact [Exact "Login:"; TIMEOUT] _) as [[i|e] s1];
      simpl; [|by intros; simplify_eq].
    destruct (bool_decide (i = 0)); simpl; by intros; simplify_eq.
Qed.

(** X15. [assert_login] and [assert_login_fail] check the prompt only
    after a complete login dialogue.  If the echo of the login or the
    [Password:] prompt is not matched, both raise the [AssertionError] of
    [log_in] with only the login line sent, whatever the check of the
    prompt would say: a login that could not be entered is not taken for
    a login that was refused.  If both are matched, the outcome is the one
    of the check of the prompt, run after both lines were sent. *)
Theorem login_asserts_need_the_dialogue check check_fail login passwd d :
  (∀ i s1,
     spawn_expect_exact [Exact login; TIMEOUT]
       (spawn_send (login +:+ newline) (session d)) = (Ret i, s1) →
     i ≠ 0 →
     assert_login check login passwd d =
       (Raise (AssertionError "Cannot enter login to login prompt"),
        {| session := s1; sent := sent d ++ [login +:+ newline] |}) ∧
     assert_login_fail check_fail login passwd d =
       (Raise (AssertionError "Cannot enter login to login prompt"),
        {| session := s1; sent := sent d ++ [login +:+ newline] |})) ∧
  (∀ s1 j s2,
     spawn_expect_exact [Exact login; TIMEOUT]
       (spawn_send (login +:+ newline) (session d)) = (Ret 0, s1) →
     spawn_expect_exact [Exact "Password:"; TIMEOUT] s1 = (Ret j, s2) →
     j ≠ 0 →
     assert_login check login passwd d =
       (Raise (AssertionError ""),
        {| session := s2; sent := sent d ++ [login +:+ newline] |}) ∧
     assert_login_fail check_fail login passwd d =
       (Raise (AssertionError ""),
        {| session := s2; sent := sent d ++ [login +:+ newline] |})) ∧
  (∀ s1 s2,
     spawn_expect_exact [Exact login; TIMEOUT]
       (spawn_send (login +:+ newline) (session d)) = (Ret 0, s1) →
     spawn_expect_exact [Exact "Password:"; TIMEOUT] s1 = (Ret 0, s2) →
     assert_login check login passwd d =
       check "Login should pass but failed" 1%Z
         {| session := spawn_send (passwd +:+ newline) s2;
            sent := sent d ++ [login +:+ newline; passwd +:+ newline] |} ∧
     assert_login_fail check_fail login passwd d =
       check_fail "Login should fail but passed" 1%Z
         {| session := spawn_send (passwd +:+ newline) s2;
            sent := sent d ++ [login +:+ newline; passwd +:+ newline] |}).
Proof.
  destruct (log_in_unmatched login passwd d) as [Hecho Hprompt].
  unfold assert_login, assert_login_fail. split_and!.
  - intros i s1 H1 Hi. rewrite !bind_unfold. by rewrite (Hecho i s1 H1 Hi).
  - intros s1 j s2 H1 H2 Hj. rewrite !bind_unfold.
    by rewrite (Hprompt s1 j s2 H1 H2 Hj).
  - intros s1 s2 H1 H2. rewrite !bind_unfold.
    by rewrite (log_in_matched login passwd d s1 s2 H1 H2).
Qed.
End LoginMore.

(** ** The further statements at work on the bench *)

(** A run of three tests, of which one fails and one is ignored *)
Lemma run_tests_counters_witness :
  ∃ segs rs,
    trace (run_tests (demo_ctx false true false)
             (demo_state [t_fails; t_ignored; t_ok])).2 = [] ++ concat segs ∧
    results_of (concat segs) = rs ∧
    length segs = 3 ∧
    length rs = 3 ∧
    (∃ r seg, rs !! 0 = Some r ∧ segs !! 0 = Some seg ∧
              iteration_of t_fails r seg ∧ results_of seg = [r]) ∧
    (∃ r seg, rs !! 1 = Some r ∧ segs !! 1 = Some seg ∧
              seg = [EvPrintName "ignored"; EvPrintResult r_skip]) ∧
    1 = count_status FAIL rs ∧
    1 = count_status SKIP rs ∧
    1 + 1 + count_status OK rs = 3.
Proof.
  destruct (run_tests_counters (demo_ctx false true false)
              (demo_state [t_fails; t_ignored; t_ok]) 1 1
              (run_tests (demo_ctx false true false)
                 (demo_state [t_fails; t_ignored; t_ok])).2)
    as (segs & rs & Htr & Hres & Hls & Hlr & Hsegs & Hf & Hs & Hsum).
  { vm_compute. reflexivity. }
  exists segs, rs.
  split_and!; [exact Htr|exact Hres|exact Hls|exact Hlr| | |exact Hf|exact Hs
              |exact Hsum].
  - destruct (Hsegs 0 t_fails eq_refl) as (r & seg & Hr & Hseg & Hit & Hone & _).
    exists r, seg. split_and!; [exact Hr|exact Hseg|exact Hit|exact Hone].
  - destruct (Hsegs 1 t_ignored eq_refl) as (r & seg & Hr & Hseg & _ & _ & Hign).
    exists r, seg. split_and!; [exact Hr|exact Hseg|exact (Hign eq_refl)].
Defined.

(** The passing campaign: three tests are parsed, two pass and one is
    skipped *)
Lemma run_summary_is_consistent_witness :
  ∃ ts s0 tr total passes fails skips,
    parse_tests (demo_runner true true false ["tests"]) (demo_state []) =
      (Ret ts, s0) ∧
    total = length ts ∧
    length (tests campaign_passing.2) = length ts ∧
    (∀ j t, ts !! j = Some t →
       ∃ v, tests campaign_passing.2 !! j = Some (with_should_reboot v t)) ∧
    trace campaign_passing.2 =
      [] ++ tr ++ [EvSummary total passes fails skips] ∧
    length (results_of tr) = total ∧
    fails = count_status FAIL (results_of tr) ∧
    skips = count_status SKIP (results_of tr) ∧
    passes = Z.of_nat (count_status OK (results_of tr)) ∧
    (passes + Z.of_nat fails + Z.of_nat skips)%Z = Z.of_nat total ∧
    true = bool_decide (fails = 0).
Proof.
  apply (run_summary_is_consistent
           (demo_runner true true false ["tests"]) (demo_state []) true).
  - reflexivity.
  - vm_compute. reflexivity.
Defined.

(** A path that does not exist, and files that the parser rejects *)
Lemma discovery_or_parse_error_stops_run_witness :
  (∃ m, run (demo_runner true true false ["tests"; "nowhere"]) (demo_state [])
        = (Raise (ValueError m), demo_state [])) ∧
  run (unparsable_runner ["tests"]) (demo_state []) =
    (Raise (OtherError "bad yaml"), with_io 1 [] (demo_state [])).
Proof.
  destruct (discovery_or_parse_error_stops_run
              (demo_runner true true false ["tests"; "nowhere"]) (demo_state []))
    as [Hsearch _].
  destruct (discovery_or_parse_error_stops_run
              (unparsable_runner ["tests"]) (demo_state []))
    as [_ Hparse].
  split.
  - eexists. apply Hsearch. vm_compute. reflexivity.
  - apply Hparse. vm_compute. reflexivity.
Defined.

(** A campaign on a target that cannot flash *)
Lemma flash_failure_exits_before_tests_witness :
  ∃ st',
    run (unflashable_runner ["tests"]) (demo_state []) =
      (Raise (SystemExit 1), st') ∧
    st' = with_io 1
            [EvPrint "Flashing an image to device..."; EvFlashDut;
             EvPrint "ERROR WHILE FLASHING THE DEVICE"; EvPrint "no device"]
            (demo_state [t_ok; t_ignored; t_quiet]) ∧
    tests st' = [t_ok; t_ignored; t_quiet] ∧
    dut st' = 1 ∧
    trace st' =
      [EvPrint "Flashing an image to device..."; EvFlashDut;
       EvPrint "ERROR WHILE FLASHING THE DEVICE"; EvPrint "no device"].
Proof.
  apply (flash_failure_exits_before_tests (unflashable_runner ["tests"])
           (demo_state []) [t_ok; t_ignored; t_quiet] (demo_state [])
           "no device" 1).
  - vm_compute. reflexivity.
  - reflexivity.
  - left. reflexivity.
Defined.

(** The failing campaign does not flash; the passing one flashes once. *)
Lemma run_flashes_at_most_once_witness :
  (∃ tr, trace campaign_failing.2 = [] ++ tr ∧
         Forall (λ e, is_flash_event e = false) tr) ∧
  (∃ tr, trace campaign_passing.2 = [] ++ tr ∧
         (length (filter (λ e, is_flash_event e = true) tr) ≤ 1)%nat).
Proof.
  split.
  - destruct (run_flashes_at_most_once
                (demo_runner false true false ["tests"; "cfg/test_c.yaml"])
                (demo_state []) campaign_failing.1 campaign_failing.2)
      as (tr & Htr & _ & Hnone).
    { vm_compute. reflexivity. }
    exists tr. split; [exact Htr|]. apply Hnone. reflexivity.
  - destruct (run_flashes_at_most_once
                (demo_runner true true false ["tests"])
                (demo_state []) campaign_passing.1 campaign_passing.2)
      as (tr & Htr & Hone & _).
    { vm_compute. reflexivity. }
    exists tr. split; [exact Htr|exact Hone].
Defined.

(** Three passing tests in nightly mode *)
Lemma nightly_reboots_before_every_test_witness :
  should_reboot <$>
    tests (run_tests (demo_ctx false true true)
             (demo_state [t_quiet; t_quiet; t_quiet])).2 !! 1 = Some true ∧
  should_reboot <$>
    tests (run_tests (demo_ctx false true true)
             (demo_state [t_quiet; t_quiet; t_quiet])).2 !! 2 = Some true.
Proof.
  destruct (nightly_reboots_before_every_test (demo_ctx false true true)
              (demo_state [t_quiet; t_quiet; t_quiet]) (0, 0)
              (run_tests (demo_ctx false true true)
                 (demo_state [t_quiet; t_quiet; t_quiet])).2)
    as [_ Hall].
  - reflexivity.
  - vm_compute. reflexivity.
  - assert (∀ j, 0 < j → j < 3 →
              should_reboot <$>
                tests (run_tests (demo_ctx false true true)
                         (demo_state [t_quiet; t_quiet; t_quiet])).2 !! j
              = Some true) as Hflag.
    { intros j Hpos Hlt.
      destruct (tests (run_tests (demo_ctx false true true)
                         (demo_state [t_quiet; t_quiet; t_quiet])).2 !! j)
        as [t|] eqn:Hj.
      - simpl. f_equal. exact (Hall j t Hpos Hj).
      - apply lookup_ge_None_1 in Hj. vm_compute in Hj. lia. }
    split; apply Hflag; lia.
Defined.

(** A failing test followed by one whose flag was False *)
Lemma next_harness_is_built_with_the_flag_witness :
  ∃ st2,
    run_tests_body (demo_ctx false true false) 0 (0, 0)
      (demo_state [t_fails; t_quiet]) = (Ret (1, 0), st2) ∧
    tests st2 !! 1 = Some (with_should_reboot true t_quiet) ∧
    ∀ cnt2 o st3,
      run_tests_body (demo_ctx false true false) 1 cnt2 st2 = (o, st3) →
      ∃ tr, trace st3 =
              trace st2 ++
              [EvPrintName "quiet";
               EvBuildTest (with_should_reboot true t_quiet)] ++ tr.
Proof.
  eapply (next_harness_is_built_with_the_flag (demo_ctx false true false)
            0 (0, 0) (demo_state [t_fails; t_quiet]) t_fails t_quiet
            (mkTestResult "fails" FAIL "mismatch")).
  - reflexivity.
  - reflexivity.
  - vm_compute. reflexivity.
  - reflexivity.
  - reflexivity.
Defined.

(** Two ignored descriptors *)
Lemma all_ignored_campaign_witness :
  ∃ st' tr,
    run_tests (demo_ctx false true true) (demo_state [t_ignored; t_later]) =
      (Ret (0, 2), st') ∧
    dut st' = 0 ∧
    trace st' = [] ++ tr ∧
    Forall (λ e, is_exec_event e = false) tr.
Proof.
  apply (all_ignored_campaign (demo_ctx false true true)
           (demo_state [t_ignored; t_later])).
  repeat constructor.
Defined.

(** Two ignored tests in front of two others: the flag of the first, True,
    reaches the third descriptor. *)
Lemma flag_carried_over_ignored_tests_witness :
  ∃ st',
    run_tests_loop (demo_ctx false true false) 2 0 (0, 0)
      (demo_state [t_ignored; t_later; t_quiet; t_ok]) = (Ret (0, 2), st') ∧
    dut st' = 0 ∧
    ∀ j, (0 ≤ j)%nat → (j ≤ 2)%nat →
         should_reboot <$> tests st' !! j = Some true.
Proof.
  apply (flag_carried_over_ignored_tests (demo_ctx false true false) 2 0 (0, 0)
           (demo_state [t_ignored; t_later; t_quiet; t_ok])).
  - reflexivity.
  - vm_compute. lia.
  - intros j _ Hj Hsame. unfold same_object in Hsame.
    destruct j as [|[|j]]; [discriminate Hsame..|lia].
  - intros j t _ Hj. destruct j as [|[|j]]; [| |lia]; intros [= <-]; reflexivity.
  - intros j t Hj1 Hj2.
    destruct j as [|[|[|j]]]; [lia| | |lia]; intros [= <-]; reflexivity.
Defined.

(** A missing harness, a failed build and a crashing harness, each in
    front of a test that would pass *)
Lemma only_harness_errors_are_isolated_witness :
  run_tests picky_ctx (demo_state [t_unbuilt; t_ok]) =
    (Raise (AssertionError ""),
     with_io 0 [EvPrintName "unbuilt"; EvBuildTest t_unbuilt]
       (demo_state [t_unbuilt; t_ok])) ∧
  run_tests picky_ctx (demo_state [t_nobuild; t_ok]) =
    (Raise (HarnessError "no image"),
     with_io 0 [EvPrintName "nobuild"; EvBuildTest t_nobuild]
       (demo_state [t_nobuild; t_ok])) ∧
  run_tests picky_ctx (demo_state [t_crash; t_ok]) =
    (Raise (OtherError "boom"),
     with_io 1 [EvPrintName "crash"; EvBuildTest t_crash; EvHarnessCall t_crash]
       (demo_state [t_crash; t_ok])).
Proof.
  split_and!.
  - exact (proj1 (only_harness_errors_are_isolated picky_ctx 0 (0, 0)
                    (demo_state [t_unbuilt; t_ok]) t_unbuilt eq_refl eq_refl)
             0 eq_refl 1).
  - exact (proj1 (proj2 (only_harness_errors_are_isolated picky_ctx 0 (0, 0)
                           (demo_state [t_nobuild; t_ok]) t_nobuild
                           eq_refl eq_refl))
             (HarnessError "no image") 0 eq_refl 1).
  - refine (proj2 (proj2 (only_harness_errors_are_isolated picky_ctx 0 (0, 0)
                            (demo_state [t_crash; t_ok]) t_crash
                            eq_refl eq_refl))
              crashing_harness 0 (OtherError "boom") 1 eq_refl eq_refl _ 1).
    discriminate.
Defined.


(** A good directory, then a text file, then a path that does not exist:
    the error is the one of the text file. *)
Lemma search_for_tests_reports_first_rejected_witness :
  search_for_tests
    (demo_runner false true false ["tests"; "notes.txt"; "nowhere"]) =
    Raise (ValueError
             "Test configuration must be a file with .yaml or .yml extension").
Proof.
  assert (∀ q : string, q ∈ ["tests"] → ¬ rejected_path q) as Hgood.
  { intros q Hq. apply elem_of_cons in Hq as [->|Hq];
      [|by apply elem_of_nil in Hq].
    intros [[_ H]|[[H _]|[H _]]]; vm_compute in H; discriminate H. }
  assert (rejected_path "notes.txt") as Hbad.
  { right; left. split_and!; [reflexivity|discriminate..]. }
  exact (search_for_tests_reports_first_rejected (demo_ctx false true false)
           ["tests"] ["nowhere"] "notes.txt" Hgood Hbad).
Defined.

(** The two files of the directory [tests] *)
Lemma parse_tests_in_discovery_order_witness :
  parse_tests (demo_runner false true false ["tests"]) (demo_state []) =
    (Ret [t_ok; t_ignored; t_quiet], demo_state []).
Proof.
  apply (parse_tests_in_discovery_order
           (demo_runner false true false ["tests"]) (demo_state [])
           ["tests/test_a.yaml"; "tests/sub/test_b.yml"] demo_descriptors).
  - reflexivity.
  - intros p w Hp.
    apply elem_of_cons in Hp as [->|Hp];
      [|apply elem_of_cons in Hp as [->|Hp]; [|by apply elem_of_nil in Hp]];
      reflexivity.
Defined.

(** A session that repeats [Login:] and one that does not *)
Lemma assert_login_empty_dialogue_witness :
  assert_login_empty "" (demo_dialogue [0]) =
    (Ret tt, {| session := []; sent := [newline] |}) ∧
  assert_login_empty "" (demo_dialogue [1]) =
    (Raise (AssertionError "Empty login doesn`t repeat logging"),
     {| session := []; sent := [newline] |}).
Proof.
  destruct (assert_login_empty_dialogue "" (demo_dialogue [0])) as (Hok & _ & _).
  destruct (assert_login_empty_dialogue "" (demo_dialogue [1])) as (_ & Hno & _).
  split.
  - exact (Hok [] eq_refl).
  - refine (Hno 1 [] eq_refl _). discriminate.
Defined.

(** A session in which the login is never echoed: the check that expects
    the login to be refused is not reached, although it would pass. *)
Lemma login_asserts_need_the_dialogue_witness :
  assert_login_fail prompt_absent "root" "wrong" (demo_dialogue [1]) =
    (Raise (AssertionError "Cannot enter login to login prompt"),
     {| session := []; sent := ["root" +:+ newline] |}) ∧
  assert_login prompt_missing "root" "secret" (demo_dialogue [0; 1]) =
    (Raise (AssertionError ""),
     {| session := []; sent := ["root" +:+ newline] |}) ∧
  assert_login_fail prompt_absent "root" "wrong" (demo_dialogue [0; 0]) =
    (Ret tt,
     {| session := [];
        sent := ["root" +:+ newline; "wrong" +:+ newline] |}).
Proof.
  destruct (login_asserts_need_the_dialogue prompt_missing prompt_absent
              "root" "wrong" (demo_dialogue [1])) as (Hecho & _ & _).
  destruct (login_asserts_need_the_dialogue prompt_missing prompt_absent
              "root" "secret" (demo_dialogue [0; 1])) as (_ & Hprompt & _).
  destruct (login_asserts_need_the_dialogue prompt_missing prompt_absent
              "root" "wrong" (demo_dialogue [0; 0])) as (_ & _ & Hboth).
  split_and!.
  - refine (proj2 (Hecho 1 [] eq_refl _)). discriminate.
  - refine (proj1 (Hprompt [1] 1 [] eq_refl eq_refl _)). discriminate.
  - exact (proj2 (Hboth [0] [] eq_refl eq_refl)).
Defined.

(** A harness that returns [None], in front of another test *)
Lemma harness_result_is_counted_by_status_witness :
  ∃ st' r,
    r = mkTestResult "quiet" OK "" ∧
    run_tests_body (demo_ctx false true false) 0 (2, 3)
      (demo_state [t_quiet; t_ok]) = (Ret (2, 3), st') ∧
    dut st' = 1 ∧
    trace st' =
      [EvPrintName "quiet"; EvBuildTest t_quiet; EvHarnessCall t_quiet;
       EvPrintResult r].
Proof.
  destruct (harness_result_is_counted_by_status (demo_ctx false true false)
              0 (2, 3) (demo_state [t_quiet; t_ok]) t_quiet
              (harness_of t_quiet) 0 None 1 eq_refl eq_refl eq_refl eq_refl)
    as (st' & r & Hr & Hbody & Hdut & Htrace & _).
  exists st', r. rewrite Hr in *. split_and!; [reflexivity|exact Hbody|exact Hdut|exact Htrace].
Defined.

(** A run that is cut short by a crashing harness *)
Lemma run_tests_keeps_the_descriptors_witness :
  ∃ t', tests (run_tests picky_ctx
                 (demo_state [t_fails; t_apps; t_crash; t_ok])).2 !! 1
        = Some t' ∧
        name t' = "apps" ∧ ignore t' = false ∧
        bootloader t' = Some {| apps := ["psh"] |} ∧ extra t' = [].
Proof.
  destruct (run_tests_keeps_the_descriptors picky_ctx
              (demo_state [t_fails; t_apps; t_crash; t_ok])
              (run_tests picky_ctx
                 (demo_state [t_fails; t_apps; t_crash; t_ok])).1
              (run_tests picky_ctx
                 (demo_state [t_fails; t_apps; t_crash; t_ok])).2)
    as [_ Hkeep].
  - vm_compute. reflexivity.
  - exact (Hkeep 1 t_apps eq_refl).
Defined.

(** The passing campaign: flashing comes first, then the path, then the
    tests. *)
Lemma syspath_is_extended_before_the_tests_witness :
  ∃ tr, trace campaign_passing.2 =
          [EvPrint "Flashing an image to device..."; EvFlashDut;
           EvPrint "Done!"] ++
          [EvSysPathInsert "/srv/phoenix-rtos-project/phoenix-rtos-tests"] ++
          tr.
Proof.
  destruct (syspath_is_extended_before_the_tests
              (demo_runner true true false ["tests"]) (demo_state [])
              (run_prologue (demo_runner true true false ["tests"])
                 (demo_state [])).2
              campaign_passing.1 campaign_passing.2) as (_ & Hpath & _).
  - vm_compute. reflexivity.
  - vm_compute. reflexivity.
  - exact (Hpath eq_refl).
Defined.
